(** * File Notes plugin: a shallow embedding and its verified properties

    The development follows the TypeScript sources of the plugin:
    - [file-operations.ts]  note path and content derivation, batch engine;
    - [main.ts]             extension filter, exclusion sets, eligibility;
    - [hidden-files.ts]     the Hidden Files Manager;
    - [context-menu.ts]     the exclusion toggles offered to the user;
    - [settings.ts]         the settings record.

    JavaScript strings are modelled as [string] (sequences of 8-bit
    characters).  Every pattern and separator the plugin uses is ASCII, so
    on UTF-8 encoded text the byte-level functions below agree with the
    UTF-16 ones of the host; [toLowerCase] and [trim] are the ASCII parts of
    their JavaScript counterparts. *)

From Stdlib Require Import Ascii String Bool Arith Lia List DecimalString.
From stdpp Require Import base decidable option list gmap sets strings.

(** ** JavaScript string primitives *)

Module JS.

Definition isDot (c : ascii) : bool := Ascii.eqb c "."%char.

(** [s.startsWith(p)] *)
Fixpoint startsWith (s p : string) {struct p} : bool :=
  match p, s with
  | EmptyString, _ => true
  | String _ _, EmptyString => false
  | String a p', String b s' => Ascii.eqb a b && startsWith s' p'
  end.

(** [s.slice(n)] for [0 <= n] *)
Fixpoint slice (n : nat) (s : string) : string :=
  match n, s with
  | O, _ => s
  | S _, EmptyString => EmptyString
  | S k, String _ r => slice k r
  end.

(** [s.endsWith(p)] *)
Definition endsWith (s p : string) : bool :=
  String.eqb (slice (String.length s - String.length p) s) p
  && Nat.leb (String.length p) (String.length s).

(** [s.includes(c)] for a single character *)
Fixpoint includes (c : ascii) (s : string) : bool :=
  match s with
  | EmptyString => false
  | String a r => Ascii.eqb a c || includes c r
  end.

(** The character class [[^.]] repeated to the end of input: [/[^.]*$/]
    anchored at the start of [s]. *)
Fixpoint dotFree (s : string) : bool :=
  match s with
  | EmptyString => true
  | String c r => negb (isDot c) && dotFree r
  end.

(** [/[^.]+$/] anchored at the start of [s]: at least one character. *)
Definition dotFreeTail (s : string) : bool :=
  match s with
  | EmptyString => false
  | String _ _ => dotFree s
  end.

(** [s.replace(/\.[^.]+$/, repl)] for a replacement without [$]: the
    regular expression engine tries every start index from the left and
    takes the first one where a dot is followed by one or more non-dot
    characters up to the end of input; the match then reaches the end, so
    the result is the text before it followed by the replacement.  When
    no index matches the string is returned as it is. *)
Fixpoint replaceExtension (repl : string) (s : string) : string :=
  match s with
  | EmptyString => EmptyString
  | String c r =>
      if isDot c && dotFreeTail r then repl
      else String c (replaceExtension repl r)
  end.

(** [s.toLowerCase()], ASCII letters *)
Definition lowerChar (c : ascii) : ascii :=
  let n := nat_of_ascii c in
  if Nat.leb 65 n && Nat.leb n 90 then ascii_of_nat (n + 32) else c.

Fixpoint toLowerCase (s : string) : string :=
  match s with
  | EmptyString => EmptyString
  | String c r => String (lowerChar c) (toLowerCase r)
  end.

(** [s.trim()]: white space is TAB, LF, VT, FF, CR and SPACE *)
Definition isWhiteSpace (c : ascii) : bool :=
  let n := nat_of_ascii c in
  (Nat.leb 9 n && Nat.leb n 13) || Nat.eqb n 32.

Fixpoint trimStart (s : string) : string :=
  match s with
  | EmptyString => EmptyString
  | String c r => if isWhiteSpace c then trimStart r else s
  end.

Fixpoint trimEnd (s : string) : string :=
  match s with
  | EmptyString => EmptyString
  | String c r =>
      match trimEnd r with
      | EmptyString => if isWhiteSpace c then EmptyString else String c EmptyString
      | r' => String c r'
      end
  end.

Definition trim (s : string) : string := trimEnd (trimStart s).

(** [s.split(sep)] for a one-character separator: [n] separators give
    [n + 1] pieces, and the empty string gives one empty piece. *)
Fixpoint split (sep : ascii) (s : string) : list string :=
  match s with
  | EmptyString => [EmptyString]
  | String c r =>
      if Ascii.eqb c sep then EmptyString :: split sep r
      else match split sep r with
           | piece :: pieces => String c piece :: pieces
           | [] => [String c EmptyString]
           end
  end.

(** [pieces.join(sep)] *)
Fixpoint join (sep : ascii) (pieces : list string) : string :=
  match pieces with
  | [] => EmptyString
  | [piece] => piece
  | piece :: rest => piece +:+ String sep (join sep rest)
  end.

Fixpoint allWhiteSpace (s : string) : bool :=
  match s with
  | EmptyString => true
  | String c r => isWhiteSpace c && allWhiteSpace r
  end.

Definition startsWithWhiteSpace (s : string) : bool :=
  match s with
  | EmptyString => false
  | String c _ => isWhiteSpace c
  end.

Fixpoint endsWithWhiteSpace (s : string) : bool :=
  match s with
  | EmptyString => false
  | String c EmptyString => isWhiteSpace c
  | String _ r => endsWithWhiteSpace r
  end.

(** [GetSubstitution] of ECMAScript for a pattern without capture groups:
    in the replacement text [$$] stands for a dollar sign, [$&] for the
    matched text, [$`] for the text before the match and [$'] for the text
    after it.  A dollar sign followed by anything else (digits and [<]
    included, since there is no group to refer to) stands for itself. *)
Fixpoint getSubstitution (matched before after repl : string) : string :=
  match repl with
  | EmptyString => EmptyString
  | String c r =>
      if Ascii.eqb c "$"%char then
        match r with
        | EmptyString => String c EmptyString
        | String d r' =>
            if Ascii.eqb d "$"%char then String "$"%char (getSubstitution matched before after r')
            else if Ascii.eqb d "&"%char then matched +:+ getSubstitution matched before after r'
            else if Ascii.eqb d "`"%char then before +:+ getSubstitution matched before after r'
            else if Ascii.eqb d "'"%char then after +:+ getSubstitution matched before after r'
            else String c (getSubstitution matched before after r)
        end
      else String c (getSubstitution matched before after r)
  end.

(** [str.replace(/pat/g, repl)] for a pattern [pat] that is a literal,
    non-empty text.  The scan goes left to right over [str]; [seen] is the
    part of [str] already passed and [skip] counts the characters of the
    current match still to be stepped over.  Every match is replaced by
    the expansion of [repl] for that match, and matches do not overlap. *)
Fixpoint replaceAllFrom (pat repl seen : string) (skip : nat) (s : string) : string :=
  match s with
  | EmptyString => EmptyString
  | String c r =>
      match skip with
      | S k => replaceAllFrom pat repl (seen +:+ String c EmptyString) k r
      | O =>
          if startsWith s pat then
            getSubstitution pat seen (slice (String.length pat) s) repl
              +:+ replaceAllFrom pat repl (seen +:+ String c EmptyString)
                    (String.length pat - 1) r
          else String c (replaceAllFrom pat repl (seen +:+ String c EmptyString) 0 r)
      end
  end.

Definition replaceAll (pat repl str : string) : string :=
  replaceAllFrom pat repl EmptyString 0 str.

(** Plain text substitution, the reading of the documentation: every
    occurrence of [pat] gives way to [text] as it is. *)
Fixpoint substituteFrom (pat text : string) (skip : nat) (s : string) : string :=
  match s with
  | EmptyString => EmptyString
  | String c r =>
      match skip with
      | S k => substituteFrom pat text k r
      | O =>
          if startsWith s pat then
            text +:+ substituteFrom pat text (String.length pat - 1) r
          else String c (substituteFrom pat text 0 r)
      end
  end.

Definition substituteAll (pat text str : string) : string :=
  substituteFrom pat text 0 str.

End JS.

(** ** Host data: files and folders of the vault *)

Record TFile := mkTFile {
  path : string;       (* vault-unique path *)
  name : string;       (* display name: last path component, with extension *)
  extension : string   (* extension as the host reports it *)
}.

Record TFolder := mkTFolder {
  folderPath : string;
  folderName : string
}.

(** [TAbstractFile]: what [getAbstractFileByPath] and the vault events hand
    out; [instanceof TFile] asks for the first constructor. *)
Inductive TAbstractFile :=
| AFile (f : TFile)
| AFolder (d : TFolder).

(** ** Settings ([settings.ts]) *)

Record FileNoteSettings := mkSettings {
  fileExtensions : string;
  autoCreate : bool;
  excludedFiles : list string;
  excludedFolders : list string;
  hideFilesWithNotes : bool;
  noteTemplate : string;
  notesFolder : string;
  addSourceFrontmatter : bool
}.

Definition DEFAULT_SETTINGS : FileNoteSettings :=
  {| fileExtensions := "mp4";
     autoCreate := false;
     excludedFiles := [];
     excludedFolders := [];
     hideFilesWithNotes := false;
     noteTemplate := "![[{{filename}}]]";
     notesFolder := "";
     addSourceFrontmatter := false |}.

(** ** Note path ([FileNoteOperations.getNotePath])

    [return file.path.replace(/\.[^.]+$/, '.md');]
    The method lives in a class holding [this.settings]; the settings are
    an argument here although the body never reads them. *)

Definition getNotePath (settings : FileNoteSettings) (file : TFile) : string :=
  JS.replaceExtension ".md" (path file).

(** ** Note content ([FileNoteOperations.getNoteContent])

    [return this.settings.noteTemplate.replace(/\{\{filename\}\}/g, file.name);] *)

Definition getNoteContent (settings : FileNoteSettings) (file : TFile) : string :=
  JS.replaceAll "{{filename}}" (name file) (noteTemplate settings).

(** ** The host storage API

    The vault is the host's: the plugin only calls it.  [vaultCreate] and
    [vaultDelete] are the awaited [vault.create(path, content)] and
    [vault.delete(file)]; their promise either resolves or rejects, and
    both leave a vault behind. *)

Inductive Settled (V : Type) :=
| Resolved (v : V)
| Rejected (v : V).
Arguments Resolved {V} v.
Arguments Rejected {V} v.

Definition vaultAfter {V : Type} (r : Settled V) : V :=
  match r with Resolved v => v | Rejected v => v end.

Class VaultAPI (V : Type) := {
  getAbstractFileByPath : V -> string -> option TAbstractFile;
  getFiles : V -> list TFile;
  vaultCreate : V -> string -> string -> Settled V;
  vaultDelete : V -> TFile -> Settled V
}.

(** What the properties below rely on: a lookup answers with the entry
    stored at the path asked for; a resolved [create] leaves an entry at
    its path, a resolved [delete] leaves none; and no call, resolved or
    rejected, touches another path. *)
Class VaultLaws (V : Type) `{VaultAPI V} := {
  lookup_path : forall v p f,
    getAbstractFileByPath v p = Some (AFile f) -> path f = p;
  create_resolved : forall v p c v',
    vaultCreate v p c = Resolved v' -> is_Some (getAbstractFileByPath v' p);
  create_frame : forall v p c q,
    q <> p ->
    getAbstractFileByPath (vaultAfter (vaultCreate v p c)) q = getAbstractFileByPath v q;
  delete_resolved : forall v f v',
    vaultDelete v f = Resolved v' -> getAbstractFileByPath v' (path f) = None;
  delete_frame : forall v f q,
    q <> path f ->
    getAbstractFileByPath (vaultAfter (vaultDelete v f)) q = getAbstractFileByPath v q
}.

(** ** Batch engine ([file-operations.ts]) *)

Record BatchOperationResult := mkResult {
  success : nat;
  skipped : nat;
  failed : nat
}.

Definition incSuccess (r : BatchOperationResult) : BatchOperationResult :=
  {| success := S (success r); skipped := skipped r; failed := failed r |}.
Definition incSkipped (r : BatchOperationResult) : BatchOperationResult :=
  {| success := success r; skipped := S (skipped r); failed := failed r |}.
Definition incFailed (r : BatchOperationResult) : BatchOperationResult :=
  {| success := success r; skipped := skipped r; failed := S (failed r) |}.

Section FileNoteOperations.
Context {V : Type} `{VaultAPI V}.
Variable settings : FileNoteSettings.

(** One turn of the [for] loop of [createFileNotes]: the vault and the
    three counters are the loop state. *)
Definition createFileNotes_body (st : V * BatchOperationResult) (file : TFile)
  : V * BatchOperationResult :=
  let '(v, r) := st in
  let mdPath := getNotePath settings file in
  match getAbstractFileByPath v mdPath with
  | Some _ => (v, incSkipped r)                      (* skipped++; continue *)
  | None =>
      let content := getNoteContent settings file in
      match vaultCreate v mdPath content with
      | Resolved v' => (v', incSuccess r)            (* success++ *)
      | Rejected v' => (v', incFailed r)             (* catch: failed++ *)
      end
  end.

Definition createFileNotes (v : V) (files : list TFile) : V * BatchOperationResult :=
  fold_left createFileNotes_body files (v, mkResult 0 0 0).

(** One turn of the [for] loop of [removeFileNotes]. *)
Definition removeFileNotes_body (st : V * BatchOperationResult) (file : TFile)
  : V * BatchOperationResult :=
  let '(v, r) := st in
  let mdPath := getNotePath settings file in
  match getAbstractFileByPath v mdPath with
  | Some (AFile mdFile) =>
      match vaultDelete v mdFile with
      | Resolved v' => (v', incSuccess r)            (* success++ *)
      | Rejected v' => (v', incFailed r)             (* catch: failed++ *)
      end
  | _ => (v, incSkipped r)     (* !mdFile || !(mdFile instanceof TFile) *)
  end.

Definition removeFileNotes (v : V) (files : list TFile) : V * BatchOperationResult :=
  fold_left removeFileNotes_body files (v, mkResult 0 0 0).

(** [getExistingNotes]: map every source to the entry at its note path and
    keep the entries that are files. *)
Definition getExistingNotes (v : V) (files : list TFile) : list TFile :=
  omap (fun f => match getAbstractFileByPath v (getNotePath settings f) with
                 | Some (AFile n) => Some n
                 | _ => None
                 end) files.

End FileNoteOperations.

(** The per-file reading of the batch contract: every file of the list, in
    order, ends in exactly one of three outcomes, decided on the vault as
    the files before it left it. *)
Inductive Outcome := Skipped | Succeeded | Failed.

#[global] Instance Outcome_eq_dec : EqDecision Outcome.
Proof. solve_decision. Defined.

Definition tally (os : list Outcome) : BatchOperationResult :=
  {| success := length (filter (fun o => o = Succeeded) os);
     skipped := length (filter (fun o => o = Skipped) os);
     failed := length (filter (fun o => o = Failed) os) |}.

(** the counter an outcome adds to *)
Definition bump (o : Outcome) (r : BatchOperationResult) : BatchOperationResult :=
  match o with
  | Succeeded => incSuccess r
  | Skipped => incSkipped r
  | Failed => incFailed r
  end.

Section BatchContract.
Context {V : Type} `{VaultAPI V}.
Variable settings : FileNoteSettings.

(** create: the precondition is that something already sits at the note path *)
Definition createOne (v : V) (file : TFile) : V * Outcome :=
  match getAbstractFileByPath v (getNotePath settings file) with
  | Some _ => (v, Skipped)
  | None =>
      match vaultCreate v (getNotePath settings file) (getNoteContent settings file) with
      | Resolved v' => (v', Succeeded)
      | Rejected v' => (v', Failed)
      end
  end.

(** remove: the precondition is that no note file sits at the note path *)
Definition removeOne (v : V) (file : TFile) : V * Outcome :=
  match getAbstractFileByPath v (getNotePath settings file) with
  | Some (AFile note) =>
      match vaultDelete v note with
      | Resolved v' => (v', Succeeded)
      | Rejected v' => (v', Failed)
      end
  | _ => (v, Skipped)
  end.

Fixpoint eachInOrder (one : V -> TFile -> V * Outcome) (v : V) (files : list TFile)
  : V * list Outcome :=
  match files with
  | [] => (v, [])
  | file :: rest =>
      let '(v1, o) := one v file in
      let '(v2, os) := eachInOrder one v1 rest in
      (v2, o :: os)
  end.

End BatchContract.

(** ** The plugin ([main.ts]) *)

(** [const EXCLUDED_EXTENSIONS = new Set(['md', 'canvas', 'base'])] *)
Definition EXCLUDED_EXTENSIONS : gset string :=
  list_to_set ["md"; "canvas"; "base"].

(** The fields of [FileNotePlugin] that the logic reads and writes.  The
    components [fileOps] and [hiddenFiles] hold a reference to the same
    settings object, so one [settings] field stands for all three. *)
Record FileNotePlugin := mkPlugin {
  settings : FileNoteSettings;
  cachedExtensions : option (gset string);
  excludedFilesSet : gset string;
  excludedFoldersSet : gset string
}.

Definition isFileExcluded (plugin : FileNotePlugin) (filePath : string) : bool :=
  bool_decide (filePath ∈ excludedFilesSet plugin).

Definition isFolderExcluded (plugin : FileNotePlugin) (folderPath : string) : bool :=
  bool_decide (folderPath ∈ excludedFoldersSet plugin).

(** [file instanceof TFile && !EXCLUDED_EXTENSIONS.has(file.extension.toLowerCase())] *)
Definition isEligibleFile (file : TAbstractFile) : bool :=
  match file with
  | AFile f => negb (bool_decide (JS.toLowerCase (extension f) ∈ EXCLUDED_EXTENSIONS))
  | AFolder _ => false
  end.

(** [settings.excludedFolders.some(folder => filePath.startsWith(folder + '/'))] *)
Definition isInExcludedFolder (plugin : FileNotePlugin) (filePath : string) : bool :=
  existsb (fun folder => JS.startsWith filePath (folder +:+ "/"))
          (excludedFolders (settings plugin)).

(** The extension list as [getExtensions] computes it on a cache miss:
    split at commas, trim and lower-case every piece, drop the empty ones
    and [md], and build a [Set]. *)
Definition parseExtensions (raw : string) : gset string :=
  list_to_set
    (filter (fun ext => String.length ext ≠ 0 ∧ ext ≠ "md")
       ((fun ext => JS.toLowerCase (JS.trim ext)) <$> JS.split ","%char raw)).

(** [getExtensions]: answers from the cache when it is filled, and fills
    it otherwise; the plugin with the cache filled is returned as well. *)
Definition getExtensions (plugin : FileNotePlugin) : gset string * FileNotePlugin :=
  match cachedExtensions plugin with
  | Some cached => (cached, plugin)
  | None =>
      let extensions := parseExtensions (fileExtensions (settings plugin)) in
      (extensions,
       {| settings := settings plugin;
          cachedExtensions := Some extensions;
          excludedFilesSet := excludedFilesSet plugin;
          excludedFoldersSet := excludedFoldersSet plugin |})
  end.

(** The cache, when filled, holds the extensions of the current settings:
    [saveSettings] empties it after every change. *)
Definition cacheValid (plugin : FileNotePlugin) : Prop :=
  match cachedExtensions plugin with
  | None => True
  | Some cached => cached = parseExtensions (fileExtensions (settings plugin))
  end.

(** The exclusion sets mirror the arrays of the settings: [loadSettings]
    and [saveSettings] rebuild them. *)
Definition setsRebuilt (plugin : FileNotePlugin) : Prop :=
  excludedFilesSet plugin = list_to_set (excludedFiles (settings plugin))
  /\ excludedFoldersSet plugin = list_to_set (excludedFolders (settings plugin)).

(** [shouldCreateNoteFor]: four guards in a row.  The second one calls
    [getExtensions] and so may fill the cache. *)
Definition shouldCreateNoteFor (plugin : FileNotePlugin) (file : TAbstractFile)
  : bool * FileNotePlugin :=
  match file with
  | AFolder _ => (false, plugin)
  | AFile f =>
      if negb (isEligibleFile file) then (false, plugin)
      else
        let '(extensions, plugin') := getExtensions plugin in
        if negb (bool_decide (JS.toLowerCase (extension f) ∈ extensions)) then (false, plugin')
        else if bool_decide (path f ∈ excludedFilesSet plugin') then (false, plugin')
        else if isInExcludedFolder plugin' (path f) then (false, plugin')
        else (true, plugin')
  end.

(** [rebuildExclusionSets] *)
Definition rebuildExclusionSets (plugin : FileNotePlugin) : FileNotePlugin :=
  {| settings := settings plugin;
     cachedExtensions := cachedExtensions plugin;
     excludedFilesSet := list_to_set (excludedFiles (settings plugin));
     excludedFoldersSet := list_to_set (excludedFolders (settings plugin)) |}.

(** [loadSettings]: [Object.assign({}, DEFAULT_SETTINGS, data)] has become
    [loaded] by the time the sets are rebuilt; the cache is left alone. *)
Definition loadSettings (loaded : FileNoteSettings) (plugin : FileNotePlugin) : FileNotePlugin :=
  rebuildExclusionSets
    {| settings := loaded;
       cachedExtensions := cachedExtensions plugin;
       excludedFilesSet := excludedFilesSet plugin;
       excludedFoldersSet := excludedFoldersSet plugin |}.

(** [saveSettings], once the host has written the data: the cache is
    dropped and the exclusion sets are rebuilt. *)
Definition saveSettings (plugin : FileNotePlugin) : FileNotePlugin :=
  rebuildExclusionSets
    {| settings := settings plugin;
       cachedExtensions := None;
       excludedFilesSet := excludedFilesSet plugin;
       excludedFoldersSet := excludedFoldersSet plugin |}.

(** The plugin as [onload] leaves it. *)
Definition onload (loaded : FileNoteSettings) : FileNotePlugin :=
  loadSettings loaded
    {| settings := DEFAULT_SETTINGS;
       cachedExtensions := None;
       excludedFilesSet := ∅;
       excludedFoldersSet := ∅ |}.

Definition withExcludedFiles (l : list string) (s : FileNoteSettings) : FileNoteSettings :=
  {| fileExtensions := fileExtensions s; autoCreate := autoCreate s;
     excludedFiles := l; excludedFolders := excludedFolders s;
     hideFilesWithNotes := hideFilesWithNotes s; noteTemplate := noteTemplate s;
     notesFolder := notesFolder s; addSourceFrontmatter := addSourceFrontmatter s |}.

Definition withExcludedFolders (l : list string) (s : FileNoteSettings) : FileNoteSettings :=
  {| fileExtensions := fileExtensions s; autoCreate := autoCreate s;
     excludedFiles := excludedFiles s; excludedFolders := l;
     hideFilesWithNotes := hideFilesWithNotes s; noteTemplate := noteTemplate s;
     notesFolder := notesFolder s; addSourceFrontmatter := addSourceFrontmatter s |}.

Definition withSettings (s : FileNoteSettings) (plugin : FileNotePlugin) : FileNotePlugin :=
  {| settings := s;
     cachedExtensions := cachedExtensions plugin;
     excludedFilesSet := excludedFilesSet plugin;
     excludedFoldersSet := excludedFoldersSet plugin |}.

(** [toggleFileExclusion(file, exclude)] *)
Definition toggleFileExclusion (plugin : FileNotePlugin) (file : TFile) (exclude : bool)
  : FileNotePlugin :=
  let s := settings plugin in
  let s' :=
    if exclude then
      if negb (bool_decide (path file ∈ excludedFilesSet plugin))
      then withExcludedFiles (excludedFiles s ++ [path file]) s      (* push *)
      else s
    else withExcludedFiles (filter (fun p => p ≠ path file) (excludedFiles s)) s in
  saveSettings (withSettings s' plugin).

(** [toggleFolderExclusion(folder, exclude)] *)
Definition toggleFolderExclusion (plugin : FileNotePlugin) (folder : TFolder) (exclude : bool)
  : FileNotePlugin :=
  let s := settings plugin in
  let s' :=
    if exclude then
      if negb (bool_decide (folderPath folder ∈ excludedFoldersSet plugin))
      then withExcludedFolders (excludedFolders s ++ [folderPath folder]) s
      else s
    else withExcludedFolders (filter (fun p => p ≠ folderPath folder) (excludedFolders s)) s in
  saveSettings (withSettings s' plugin).

(** The exclusion entry of the context menu ([context-menu.ts]): the menu
    reads whether the path is excluded and offers the opposite action. *)
Definition fileExclusionMenuClick (plugin : FileNotePlugin) (file : TFile) : FileNotePlugin :=
  if isFileExcluded plugin (path file)
  then toggleFileExclusion plugin file false
  else toggleFileExclusion plugin file true.

Definition folderExclusionMenuClick (plugin : FileNotePlugin) (folder : TFolder) : FileNotePlugin :=
  if isFolderExcluded plugin (folderPath folder)
  then toggleFolderExclusion plugin folder false
  else toggleFolderExclusion plugin folder true.

(** no note file sits at the path *)
Definition noNoteFile {V : Type} `{VaultAPI V} (v : V) (p : string) : Prop :=
  forall note, getAbstractFileByPath v p <> Some (AFile note).

(** ** Bulk commands ([main.ts]) *)

(** [files.filter(f => this.shouldCreateNoteFor(f))], the plugin threaded
    through the calls. *)
Fixpoint filterShouldCreate (plugin : FileNotePlugin) (files : list TFile)
  : list TFile * FileNotePlugin :=
  match files with
  | [] => ([], plugin)
  | f :: rest =>
      let '(keep, plugin1) := shouldCreateNoteFor plugin (AFile f) in
      let '(kept, plugin2) := filterShouldCreate plugin1 rest in
      (if keep then f :: kept else kept, plugin2)
  end.

(** The answer of the user to the confirmation dialog
    ([confirm-delete-modal.ts]): the Delete button closes the dialog and
    calls [onConfirm], the Cancel button only closes it. *)
Inductive ModalChoice := Confirm | Cancel.

Section BulkCommands.
Context {V : Type} `{VaultAPI V}.

(** [createAllFileNotes]: nothing happens when no extension is configured. *)
Definition createAllFileNotes (plugin : FileNotePlugin) (v : V)
  : V * option BatchOperationResult * FileNotePlugin :=
  let '(extensions, plugin1) := getExtensions plugin in
  if Nat.eqb (size extensions) 0 then (v, None, plugin1)
  else
    let '(files, plugin2) := filterShouldCreate plugin1 (getFiles v) in
    let '(v', result) := createFileNotes (settings plugin2) v files in
    (v', Some result, plugin2).

(** [confirmAndRemoveFileNotes(files, emptyMessage)] *)
Definition confirmAndRemoveFileNotes (plugin : FileNotePlugin) (choice : ModalChoice)
    (v : V) (files : list TFile) : V * option BatchOperationResult :=
  match getExistingNotes (settings plugin) v files with
  | [] => (v, None)                                   (* new Notice(emptyMessage) *)
  | _ :: _ =>
      match choice with
      | Confirm =>
          let '(v', result) := removeFileNotes (settings plugin) v files in
          (v', Some result)
      | Cancel => (v, None)
      end
  end.

(** [this.app.vault.getFiles().filter(f => this.isEligibleFile(f))] *)
Definition removeAllFileNotes_files (plugin : FileNotePlugin) (v : V) : list TFile :=
  filter (fun f => isEligibleFile (AFile f) = true) (getFiles v).

Definition removeAllFileNotes (plugin : FileNotePlugin) (choice : ModalChoice) (v : V)
  : V * option BatchOperationResult :=
  confirmAndRemoveFileNotes plugin choice v (removeAllFileNotes_files plugin v).

(** [getFiles().filter(f => f.path.startsWith(folder.path + '/') && this.isEligibleFile(f))] *)
Definition removeFileNotesInFolder_files (plugin : FileNotePlugin) (folder : TFolder) (v : V)
  : list TFile :=
  filter (fun f => JS.startsWith (path f) (folderPath folder +:+ "/")
                   && isEligibleFile (AFile f) = true) (getFiles v).

Definition removeFileNotesInFolder (plugin : FileNotePlugin) (folder : TFolder)
    (choice : ModalChoice) (v : V) : V * option BatchOperationResult :=
  confirmAndRemoveFileNotes plugin choice v (removeFileNotesInFolder_files plugin folder v).

End BulkCommands.

(** ** Hidden Files Manager ([hidden-files.ts]) *)

(** An element is known here by its class list. *)
Record FileItem := mkItem { el : gset string }.

Definition addClass (cls : string) (item : FileItem) : FileItem :=
  {| el := {[cls]} ∪ el item |}.
Definition removeClass (cls : string) (item : FileItem) : FileItem :=
  {| el := el item ∖ {[cls]} |}.

Definition markedHidden (item : FileItem) : Prop := "file-note-hidden" ∈ el item.

(** [FileExplorerView]: [fileItems] may be missing; when present it is
    read through [Object.entries], a list of path and item pairs. *)
Record FileExplorerView := mkView {
  fileItems : option (list (string * FileItem))
}.

(** [app.workspace.getLeavesOfType('file-explorer')] *)
Record Workspace := mkWorkspace {
  fileExplorerLeaves : list FileExplorerView
}.

Record HiddenFilesManager := mkManager {
  hasHiddenFiles : bool
}.

Section HiddenFiles.
Context {V : Type} `{VaultAPI V}.

(** One turn of the [for] loop of [update]; the loop state is the list of
    items already visited and [hiddenCount]. *)
Definition update_body (cfg : FileNoteSettings) (v : V)
    (st : list (string * FileItem) * nat) (entry : string * FileItem)
  : list (string * FileItem) * nat :=
  let '(visited, hiddenCount) := st in
  let '(itemPath, item) := entry in
  let notePath := JS.replaceExtension ".md" itemPath in
  if String.eqb itemPath notePath then (visited ++ [(itemPath, item)], hiddenCount)   (* continue *)
  else
    match hideFilesWithNotes cfg, getAbstractFileByPath v notePath with
    | true, Some _ => (visited ++ [(itemPath, addClass "file-note-hidden" item)], S hiddenCount)
    | _, _ => (visited ++ [(itemPath, removeClass "file-note-hidden" item)], hiddenCount)
    end.

(** [update()] *)
Definition update (cfg : FileNoteSettings) (v : V)
    (mgr : HiddenFilesManager) (ws : Workspace) : HiddenFilesManager * Workspace :=
  if negb (hideFilesWithNotes cfg) && negb (hasHiddenFiles mgr) then (mgr, ws)
  else
    match fileExplorerLeaves ws with
    | [] => (mgr, ws)                                 (* if (!fileExplorer) return *)
    | fileExplorer :: others =>
        match fileItems fileExplorer with
        | None => (mgr, ws)                           (* if (!fileItems) return *)
        | Some items =>
            let '(items', hiddenCount) := fold_left (update_body cfg v) items ([], 0) in
            ({| hasHiddenFiles := negb (Nat.eqb hiddenCount 0) |},
             {| fileExplorerLeaves := {| fileItems := Some items' |} :: others |})
        end
    end.

End HiddenFiles.

(** The items the manager works on, when there are any. *)
Definition explorerItems (ws : Workspace) : list (string * FileItem) :=
  match fileExplorerLeaves ws with
  | fileExplorer :: _ => default [] (fileItems fileExplorer)
  | [] => []
  end.

(** The mark is the manager's own: an item the loop passes over (its path
    is its own note path) carries none, and no item carries one while the
    manager remembers no hidden file.  A manager that starts with
    [hasHiddenFiles = false] over unmarked items is in this state, and
    [update] keeps it. *)
Definition marksFromManager (mgr : HiddenFilesManager) (ws : Workspace) : Prop :=
  (forall p item, (p, item) ∈ explorerItems ws ->
                  JS.replaceExtension ".md" p = p -> ~ markedHidden item)
  /\ (hasHiddenFiles mgr = false ->
      forall p item, (p, item) ∈ explorerItems ws -> ~ markedHidden item).

(** What one turn of the loop of [update] does to an item, and whether it
    counts the item as hidden. *)
Definition hides {V : Type} `{VaultAPI V} (cfg : FileNoteSettings) (v : V) (p : string) : bool :=
  negb (String.eqb p (JS.replaceExtension ".md" p))
  && hideFilesWithNotes cfg
  && bool_decide (is_Some (getAbstractFileByPath v (JS.replaceExtension ".md" p))).

Definition visit {V : Type} `{VaultAPI V} (cfg : FileNoteSettings) (v : V)
    (entry : string * FileItem) : string * FileItem :=
  if String.eqb entry.1 (JS.replaceExtension ".md" entry.1) then entry
  else if hides cfg v entry.1 then (entry.1, addClass "file-note-hidden" entry.2)
  else (entry.1, removeClass "file-note-hidden" entry.2).

(** ** An in-memory vault

    A vault that keeps its entries in a finite map.  Paths listed in
    [locked] stand for storage that refuses writes: creating or deleting
    there is rejected. *)

Inductive Entry :=
| EFile (content : string)
| EFolder.

Record MemVault := mkMemVault {
  entries : gmap string Entry;
  locked : gset string
}.

(** last path component *)
Fixpoint basename (p : string) : string :=
  match p with
  | EmptyString => EmptyString
  | String c r =>
      if JS.includes "/"%char r then basename r
      else if Ascii.eqb c "/"%char then r else p
  end.

(** text after the last dot of a name, empty when there is no dot *)
Fixpoint extname (n : string) : string :=
  match n with
  | EmptyString => EmptyString
  | String c r =>
      if JS.includes "."%char r then extname r
      else if Ascii.eqb c "."%char then r else EmptyString
  end.

Definition fileAt (p : string) : TFile :=
  {| path := p; name := basename p; extension := extname (basename p) |}.

Definition abstractAt (p : string) (e : Entry) : TAbstractFile :=
  match e with
  | EFile _ => AFile (fileAt p)
  | EFolder => AFolder {| folderPath := p; folderName := basename p |}
  end.

Definition mem_lookup (v : MemVault) (p : string) : option TAbstractFile :=
  abstractAt p <$> entries v !! p.

Definition mem_files (v : MemVault) : list TFile :=
  omap (fun pe => match snd pe with EFile _ => Some (fileAt (fst pe)) | EFolder => None end)
       (map_to_list (entries v)).

Definition mem_create (v : MemVault) (p content : string) : Settled MemVault :=
  if bool_decide (p ∈ locked v) then Rejected v
  else match entries v !! p with
       | Some _ => Rejected v                         (* 'File already exists.' *)
       | None => Resolved {| entries := <[p := EFile content]> (entries v); locked := locked v |}
       end.

Definition mem_delete (v : MemVault) (f : TFile) : Settled MemVault :=
  if bool_decide (path f ∈ locked v) then Rejected v
  else Resolved {| entries := delete (path f) (entries v); locked := locked v |}.

#[global] Instance MemVault_API : VaultAPI MemVault := {|
  getAbstractFileByPath := mem_lookup;
  getFiles := mem_files;
  vaultCreate := mem_create;
  vaultDelete := mem_delete
|}.

(** A vault holding the given files (with empty content). *)
Definition vaultOf (paths : list string) (lockedPaths : list string) : MemVault :=
  {| entries := list_to_map ((fun p => (p, EFile EmptyString)) <$> paths);
     locked := list_to_set lockedPaths |}.

(** ** Single-file operations and notices ([file-operations.ts]) *)

(** [new Notice(text)].  The failure notices end in the message of the
    exception the host raised, which the vault model does not carry: they
    are kept apart and known by the text before the message. *)
Inductive Notice :=
| NoticeOf (text : string)
| NoticeOfError (prefix : string).

Section SingleFile.
Context {V : Type} `{VaultAPI V}.
Variable cfg : FileNoteSettings.

(** [createFileNote(file, showNotice)] *)
Definition createFileNote (v : V) (file : TFile) (showNotice : bool) : V * list Notice :=
  let mdPath := getNotePath cfg file in
  match getAbstractFileByPath v mdPath with
  | Some _ => (v, if showNotice then [NoticeOf "File note already exists"] else [])
  | None =>
      match vaultCreate v mdPath (getNoteContent cfg file) with
      | Resolved v' => (v', if showNotice then [NoticeOf "Created File note"] else [])
      | Rejected v' => (v', [NoticeOfError "Failed to create file note: "])
      end
  end.

(** [removeFileNote(file, showNotice)] *)
Definition removeFileNote (v : V) (file : TFile) (showNotice : bool) : V * list Notice :=
  let mdPath := getNotePath cfg file in
  match getAbstractFileByPath v mdPath with
  | Some (AFile mdFile) =>
      match vaultDelete v mdFile with
      | Resolved v' => (v', if showNotice then [NoticeOf "Removed File note"] else [])
      | Rejected v' => (v', [NoticeOfError "Failed to remove file note: "])
      end
  | _ => (v, if showNotice then [NoticeOf "File note does not exist"] else [])
  end.

End SingleFile.

(** ** The message of a batch ([formatBatchResultMessage]) *)

(** [`${n}`] for a counter: decimal digits. *)
Definition numberToString (n : nat) : string :=
  NilEmpty.string_of_uint (Nat.to_uint n).

Definition formatBatchResultMessage (result : BatchOperationResult) (action : string)
    (includeSkipped : bool) : string :=
  let message := action +:+ " " +:+ numberToString (success result) +:+ " notes" in
  let message :=
    if includeSkipped
    then message +:+ ", skipped " +:+ numberToString (skipped result) +:+ " existing"
    else message in
  if Nat.ltb 0 (failed result)
  then message +:+ ", " +:+ numberToString (failed result) +:+ " failed"
  else message.

(** ** Events of the plugin ([main.ts], [settings.ts]) *)

(** [f.path.startsWith(folder.path + '/') && this.shouldCreateNoteFor(f)]
    as a filter: the second test runs only when the first one holds. *)
Fixpoint filterShouldCreateIn (folder : TFolder) (plugin : FileNotePlugin) (files : list TFile)
  : list TFile * FileNotePlugin :=
  match files with
  | [] => ([], plugin)
  | f :: rest =>
      if JS.startsWith (path f) (folderPath folder +:+ "/") then
        let '(keep, plugin1) := shouldCreateNoteFor plugin (AFile f) in
        let '(kept, plugin2) := filterShouldCreateIn folder plugin1 rest in
        (if keep then f :: kept else kept, plugin2)
      else filterShouldCreateIn folder plugin rest
  end.

Section PluginEvents.
Context {V : Type} `{VaultAPI V}.

(** [createFileNotesInFolder(folder)] *)
Definition createFileNotesInFolder (plugin : FileNotePlugin) (folder : TFolder) (v : V)
  : V * option BatchOperationResult * FileNotePlugin :=
  let '(extensions, plugin1) := getExtensions plugin in
  if Nat.eqb (size extensions) 0 then (v, None, plugin1)
  else
    let '(files, plugin2) := filterShouldCreateIn folder plugin1 (getFiles v) in
    let '(v', result) := createFileNotes (settings plugin2) v files in
    (v', Some result, plugin2).

(** The handler of the vault's [create] event in [onload]:
    [if (this.settings.autoCreate && this.shouldCreateNoteFor(file))
       this.fileOps.createFileNote(file, false);]
    The deferred refresh of the hidden files that follows is left out. *)
Definition onVaultCreate (plugin : FileNotePlugin) (v : V) (file : TAbstractFile)
  : V * list Notice * FileNotePlugin :=
  if autoCreate (settings plugin) then
    let '(wanted, plugin1) := shouldCreateNoteFor plugin file in
    match wanted, file with
    | true, AFile f =>
        let '(v', notices) := createFileNote (settings plugin1) v f false in
        (v', notices, plugin1)
    | _, _ => (v, [], plugin1)
    end
  else (v, [], plugin).

End PluginEvents.

Definition withFileExtensions (raw : string) (s : FileNoteSettings) : FileNoteSettings :=
  {| fileExtensions := raw; autoCreate := autoCreate s;
     excludedFiles := excludedFiles s; excludedFolders := excludedFolders s;
     hideFilesWithNotes := hideFilesWithNotes s; noteTemplate := noteTemplate s;
     notesFolder := notesFolder s; addSourceFrontmatter := addSourceFrontmatter s |}.




Definition withNotesFolder (folder : string) (s : FileNoteSettings) : FileNoteSettings :=
  {| fileExtensions := fileExtensions s; autoCreate := autoCreate s;
     excludedFiles := excludedFiles s; excludedFolders := excludedFolders s;
     hideFilesWithNotes := hideFilesWithNotes s; noteTemplate := noteTemplate s;
     notesFolder := folder; addSourceFrontmatter := addSourceFrontmatter s |}.

Definition withAddSourceFrontmatter (b : bool) (s : FileNoteSettings) : FileNoteSettings :=
  {| fileExtensions := fileExtensions s; autoCreate := autoCreate s;
     excludedFiles := excludedFiles s; excludedFolders := excludedFolders s;
     hideFilesWithNotes := hideFilesWithNotes s; noteTemplate := noteTemplate s;
     notesFolder := notesFolder s; addSourceFrontmatter := b |}.



(** ** The notes-folder controls of the settings tab ([settings.ts]) *)

(** [!!(value && !value.startsWith('.'))] *)
Definition isCentralFolderMode (value : string) : bool :=
  negb (String.eqb value "") && negb (JS.startsWith value ".").

(** The tab holds the plugin and the source-frontmatter toggle.  The toggle
    is set from the setting when the tab is drawn and writes the setting
    when it changes, so its shown value is the setting; what it adds is
    whether it is disabled.  A disabled toggle takes no clicks. *)
Record SettingTab := mkTab {
  tabPlugin : FileNotePlugin;
  frontmatterDisabled : bool
}.

(** [updateFrontmatterToggle(folderValue)] *)
Definition updateFrontmatterToggle (folderValue : string) (tab : SettingTab) : SettingTab :=
  if isCentralFolderMode folderValue then
    {| tabPlugin := withSettings (withAddSourceFrontmatter true (settings (tabPlugin tab)))
                                 (tabPlugin tab);
       frontmatterDisabled := true |}
  else {| tabPlugin := tabPlugin tab; frontmatterDisabled := false |}.

(** The [input] listener of the notes-folder field. *)
Definition notesFolderInput (inputValue : string) (tab : SettingTab) : SettingTab :=
  let value := JS.trim inputValue in
  let tab1 := {| tabPlugin := withSettings (withNotesFolder value (settings (tabPlugin tab)))
                                           (tabPlugin tab);
                 frontmatterDisabled := frontmatterDisabled tab |} in
  let tab2 := updateFrontmatterToggle value tab1 in
  {| tabPlugin := saveSettings (tabPlugin tab2);
     frontmatterDisabled := frontmatterDisabled tab2 |}.

(** A click on the source-frontmatter toggle: the [onChange] handler of an
    enabled toggle writes the new value and saves; on a disabled one only
    the notice of the [click] listener appears. *)
Definition frontmatterToggleClick (tab : SettingTab) : SettingTab * list Notice :=
  if frontmatterDisabled tab then
    (tab, if isCentralFolderMode (notesFolder (settings (tabPlugin tab)))
          then [NoticeOf "Required for central folder mode"] else [])
  else
    let value := negb (addSourceFrontmatter (settings (tabPlugin tab))) in
    ({| tabPlugin := saveSettings (withSettings
                                     (withAddSourceFrontmatter value (settings (tabPlugin tab)))
                                     (tabPlugin tab));
        frontmatterDisabled := false |},
     if isCentralFolderMode (notesFolder (settings (tabPlugin tab)))
     then [NoticeOf "Required for central folder mode"] else []).

Inductive TabEvent :=
| FolderInput (inputValue : string)
| FrontmatterClick.

Definition tabStep (tab : SettingTab) (ev : TabEvent) : SettingTab :=
  match ev with
  | FolderInput inputValue => notesFolderInput inputValue tab
  | FrontmatterClick => (frontmatterToggleClick tab).1
  end.

(** In central folder mode the source frontmatter is on and its toggle
    is disabled; in the other modes the toggle is free. *)
Definition centralNeedsFrontmatter (tab : SettingTab) : Prop :=
  frontmatterDisabled tab = isCentralFolderMode (notesFolder (settings (tabPlugin tab)))
  /\ (isCentralFolderMode (notesFolder (settings (tabPlugin tab))) = true ->
      addSourceFrontmatter (settings (tabPlugin tab)) = true).

(** Two plugins that answer alike: same settings and exclusion sets, the
    second one with a cache in step with the settings. *)
Definition sameConfiguration (plugin plugin' : FileNotePlugin) : Prop :=
  settings plugin' = settings plugin
  /\ excludedFilesSet plugin' = excludedFilesSet plugin
  /\ excludedFoldersSet plugin' = excludedFoldersSet plugin
  /\ cacheValid plugin'.

(** The answer of [shouldCreateNoteFor] alone. *)
Definition selected (plugin : FileNotePlugin) (f : TFile) : Prop :=
  (shouldCreateNoteFor plugin (AFile f)).1 = true.

#[global] Instance selected_dec plugin f : Decision (selected plugin f).
Proof. unfold selected. apply _. Defined.


(** last character of a text *)
Fixpoint lastChar (s : string) : option ascii :=
  match s with
  | EmptyString => None
  | String c EmptyString => Some c
  | String _ r => lastChar r
  end.

(** What [update] may change on an item: the hidden mark and nothing else. *)
Definition sameButMark (entry entry' : string * FileItem) : Prop :=
  entry'.1 = entry.1
  /\ forall cls, cls <> "file-note-hidden" -> (cls ∈ el entry'.2 <-> cls ∈ el entry.2).

(** * Properties *)

(** ** Strings *)

Section StringFacts.

Lemma app_cons c s t : String c s +:+ t = String c (s +:+ t).
Proof. reflexivity. Qed.

Lemma app_empty_l s : "" +:+ s = s.
Proof. reflexivity. Qed.

Lemma app_empty_r s : s +:+ "" = s.
Proof. induction s as [|c s IH]; [done|]. by rewrite app_cons, IH. Qed.

Lemma app_assoc' s t u : (s +:+ t) +:+ u = s +:+ (t +:+ u).
Proof. induction s as [|c s IH]; [done|]. by rewrite !app_cons, IH. Qed.


Lemma length_app' s t : String.length (s +:+ t) = String.length s + String.length t.
Proof. induction s as [|c s IH]; [done|]. rewrite app_cons. simpl. by rewrite IH. Qed.

Lemma slice_app s t : JS.slice (String.length s) (s +:+ t) = t.
Proof. induction s as [|c s IH]; [by destruct t|]. rewrite app_cons. simpl. exact IH. Qed.

Lemma startsWith_app s r : JS.startsWith (s +:+ r) s = true.
Proof.
  induction s as [|c s IH]; [done|].
  rewrite app_cons. simpl. rewrite IH. by rewrite Ascii.eqb_refl.
Qed.

Lemma startsWith_inv s p : JS.startsWith s p = true -> exists r, s = p +:+ r.
Proof.
  revert s. induction p as [|a p IH]; intros s Hs.
  - by exists s.
  - destruct s as [|b s]; [done|]. simpl in Hs.
    apply andb_true_iff in Hs as [Hab Hs]. apply Ascii.eqb_eq in Hab as ->.
    destruct (IH _ Hs) as [r ->]. by exists r.
Qed.

Lemma startsWith_iff s p : JS.startsWith s p = true <-> exists r, s = p +:+ r.
Proof.
  split; [apply startsWith_inv|]. intros [r ->]. apply startsWith_app.
Qed.

Lemma endsWith_app s t : JS.endsWith (s +:+ t) t = true.
Proof.
  unfold JS.endsWith. rewrite length_app'.
  replace (String.length s + String.length t - String.length t) with (String.length s) by lia.
  rewrite slice_app, String.eqb_refl. simpl. apply Nat.leb_le. lia.
Qed.

Lemma dotFree_app s t : JS.dotFree (s +:+ t) = JS.dotFree s && JS.dotFree t.
Proof.
  induction s as [|c s IH]; [done|].
  rewrite app_cons. simpl. rewrite IH. by rewrite andb_assoc.
Qed.

Lemma dotFree_not_includes s : JS.dotFree s = negb (JS.includes "."%char s).
Proof.
  induction s as [|c s IH]; [done|].
  simpl. rewrite IH. unfold JS.isDot. by rewrite negb_orb.
Qed.

Lemma dotFreeTail_dotFree s : JS.dotFreeTail s = true -> JS.dotFree s = true.
Proof. by destruct s. Qed.

Lemma dotFreeTail_through_dot s t : JS.dotFreeTail (s +:+ String "."%char t) = false.
Proof.
  assert (JS.dotFree (s +:+ String "."%char t) = false) as Hd.
  { rewrite dotFree_app. simpl. apply andb_false_r. }
  destruct s as [|c s]; [exact Hd|]. rewrite app_cons in *. exact Hd.
Qed.

(** The regular expression picks the last dot, when text follows it. *)
Lemma replaceExtension_last_dot repl stem ext :
  ext <> "" -> JS.dotFree ext = true ->
  JS.replaceExtension repl (stem +:+ String "."%char ext) = stem +:+ repl.
Proof.
  intros Hne Hfree. induction stem as [|c stem IH].
  - rewrite !app_empty_l. simpl.
    destruct ext as [|e ext]; [done|]. simpl in *. by rewrite Hfree.
  - rewrite !app_cons. simpl. rewrite dotFreeTail_through_dot, andb_false_r.
    by rewrite IH.
Qed.

(** Without a dot, or with nothing but dots after the last text, there is
    no match. *)
Lemma replaceExtension_no_dot repl s :
  JS.includes "."%char s = false -> JS.replaceExtension repl s = s.
Proof.
  induction s as [|c s IH]; [done|].
  simpl. intros Hs. apply orb_false_iff in Hs as [Hc Hs].
  unfold JS.isDot. rewrite Hc. simpl. by rewrite IH.
Qed.

Lemma replaceExtension_trailing_dot repl stem :
  JS.replaceExtension repl (stem +:+ ".") = stem +:+ ".".
Proof.
  induction stem as [|c stem IH]; [done|].
  rewrite !app_cons. simpl.
  change "." with (String "."%char "") at 1.
  rewrite dotFreeTail_through_dot, andb_false_r. by rewrite IH.
Qed.

End StringFacts.

(** ** Note paths *)



(** The class [[^.]] of the pattern matches a slash as well: when the file
    name has no dot and a folder name has one, the text from the folder's
    dot onwards is what gets replaced. *)
Example getNotePath_dotted_folder :
  getNotePath DEFAULT_SETTINGS {| path := "docs.v2/report"; name := "report"; extension := "" |}
  = "docs.md".
Proof. reflexivity. Qed.


(** [getNotePath] with every value the notes-folder setting can take. *)
Lemma getNotePath_any_notesFolder (cfg : FileNoteSettings) (folder : string) (file : TFile) :
  getNotePath
    {| fileExtensions := fileExtensions cfg; autoCreate := autoCreate cfg;
       excludedFiles := excludedFiles cfg; excludedFolders := excludedFolders cfg;
       hideFilesWithNotes := hideFilesWithNotes cfg; noteTemplate := noteTemplate cfg;
       notesFolder := folder; addSourceFrontmatter := addSourceFrontmatter cfg |} file
  = getNotePath cfg file.
Proof. reflexivity. Qed.


(** ** Note content *)

Section NoteContent.

Lemma getSubstitution_plain matched before after repl :
  JS.includes "$"%char repl = false ->
  JS.getSubstitution matched before after repl = repl.
Proof.
  induction repl as [|c r IH]; [done|].
  simpl. intros Hno. apply orb_false_iff in Hno as [Hc Hr].
  rewrite Hc. by rewrite IH.
Qed.

Lemma replaceAllFrom_plain pat repl seen skip s :
  JS.includes "$"%char repl = false ->
  JS.replaceAllFrom pat repl seen skip s = JS.substituteFrom pat repl skip s.
Proof.
  intros Hno. revert seen skip.
  induction s as [|c r IH]; intros seen skip; [done|].
  simpl. destruct skip as [|k]; [|apply IH].
  destruct (JS.startsWith (String c r) pat).
  - by rewrite getSubstitution_plain, IH.
  - by rewrite IH.
Qed.

(** For a display name without a dollar sign the content is the template
    with the name put in place of every placeholder. *)
Lemma getNoteContent_plain_name (cfg : FileNoteSettings) (file : TFile) :
  JS.includes "$"%char (name file) = false ->
  getNoteContent cfg file = JS.substituteAll "{{filename}}" (name file) (noteTemplate cfg).
Proof. intros Hno. by apply replaceAllFrom_plain. Qed.

End NoteContent.

(** C4, on the code: the template [# {{filename}}] gives [# report.pdf]
    for [report.pdf]; for the display name [cost$$.pdf] the code gives
    [# cost$.pdf], where putting the name in as it is gives
    [# cost$$.pdf]; and a name holding [$&] brings the placeholder back. *)
Theorem getNoteContent_evaluated :
  let cfg := {| fileExtensions := "pdf"; autoCreate := false;
                excludedFiles := []; excludedFolders := [];
                hideFilesWithNotes := false; noteTemplate := "# {{filename}}";
                notesFolder := ""; addSourceFrontmatter := false |} in
  getNoteContent cfg {| path := "report.pdf"; name := "report.pdf"; extension := "pdf" |}
    = "# report.pdf"
  /\ getNoteContent cfg {| path := "cost$$.pdf"; name := "cost$$.pdf"; extension := "pdf" |}
    = "# cost$.pdf"
  /\ JS.substituteAll "{{filename}}" "cost$$.pdf" (noteTemplate cfg) = "# cost$$.pdf"
  /\ getNoteContent cfg {| path := "R$&D.pdf"; name := "R$&D.pdf"; extension := "pdf" |}
    = "# R{{filename}}D.pdf".
Proof. by vm_compute. Qed.

(** ** Batch engine *)

Section BatchFacts.
Context {V : Type} `{VaultAPI V}.
Variable cfg : FileNoteSettings.

Lemma createFileNotes_body_one (v : V) r file :
  createFileNotes_body cfg (v, r) file
  = ((createOne cfg v file).1, bump (createOne cfg v file).2 r).
Proof.
  unfold createFileNotes_body, createOne.
  destruct (getAbstractFileByPath v (getNotePath cfg file)); [done|].
  by destruct (vaultCreate v _ _).
Qed.

Lemma removeFileNotes_body_one (v : V) r file :
  removeFileNotes_body cfg (v, r) file
  = ((removeOne cfg v file).1, bump (removeOne cfg v file).2 r).
Proof.
  unfold removeFileNotes_body, removeOne.
  destruct (getAbstractFileByPath v (getNotePath cfg file)) as [[note|d]|]; [|done..].
  by destruct (vaultDelete v note).
Qed.

Lemma bump_all_tally os a b c :
  fold_left (fun r o => bump o r) os (mkResult a b c)
  = mkResult (a + success (tally os)) (b + skipped (tally os)) (c + failed (tally os)).
Proof.
  revert a b c. induction os as [|o os IH]; intros a b c.
  - simpl. f_equal; lia.
  - simpl fold_left. destruct o; unfold bump, incSuccess, incSkipped, incFailed; simpl;
      rewrite IH; unfold tally; rewrite ?filter_cons; simpl;
      repeat case_decide; try done; simpl; f_equal; lia.
Qed.

(** A loop over the files with the counters as loop state computes what
    the file-by-file pass computes. *)
Lemma loop_eachInOrder body one (v : V) r files :
  (forall v r file, body (v, r) file = ((one v file).1, bump (one v file).2 r)) ->
  fold_left body files (v, r)
  = ((eachInOrder one v files).1,
     fold_left (fun r o => bump o r) (eachInOrder one v files).2 r).
Proof.
  intros Hbody. revert v r. induction files as [|file rest IH]; intros v r; [done|].
  simpl. rewrite Hbody. destruct (one v file) as [v1 o] eqn:E1. simpl.
  rewrite IH. by destruct (eachInOrder one v1 rest).
Qed.

Lemma eachInOrder_length one (v : V) files :
  length (eachInOrder one v files).2 = length files.
Proof.
  revert v. induction files as [|file rest IH]; intros v; [done|].
  simpl. destruct (one v file) as [v1 o]. specialize (IH v1).
  destruct (eachInOrder one v1 rest). simpl in *. by rewrite IH.
Qed.

Lemma tally_total os :
  success (tally os) + skipped (tally os) + failed (tally os) = length os.
Proof.
  induction os as [|o os IH]; [done|].
  unfold tally in *. simpl in *. rewrite !filter_cons.
  destruct o; repeat case_decide; try done; simpl; lia.
Qed.

Lemma createFileNotes_eachInOrder (v : V) files :
  createFileNotes cfg v files
  = ((eachInOrder (createOne cfg) v files).1, tally (eachInOrder (createOne cfg) v files).2).
Proof.
  unfold createFileNotes.
  rewrite (loop_eachInOrder _ (createOne cfg)) by apply createFileNotes_body_one.
  by rewrite bump_all_tally.
Qed.

Lemma removeFileNotes_eachInOrder (v : V) files :
  removeFileNotes cfg v files
  = ((eachInOrder (removeOne cfg) v files).1, tally (eachInOrder (removeOne cfg) v files).2).
Proof.
  unfold removeFileNotes.
  rewrite (loop_eachInOrder _ (removeOne cfg)) by apply removeFileNotes_body_one.
  by rewrite bump_all_tally.
Qed.

End BatchFacts.

(** C1.  [createFileNotes] and [removeFileNotes] return the vault and the
    counters of the pass that takes the files one by one in list order,
    where a file whose precondition holds is skipped, a resolved storage
    call is a success, and a rejected one is a failure after which the
    pass goes on with the rest of the list on the vault the call left.
    Every file gets exactly one outcome, so the three counters add up to
    the number of files. *)
Theorem batch_counts_every_file {V : Type} `{VaultAPI V}
    (cfg : FileNoteSettings) (v : V) (files : list TFile) :
  let created := eachInOrder (createOne cfg) v files in
  let removed := eachInOrder (removeOne cfg) v files in
  createFileNotes cfg v files = (created.1, tally created.2)
  /\ length created.2 = length files
  /\ removeFileNotes cfg v files = (removed.1, tally removed.2)
  /\ length removed.2 = length files
  /\ (let r := (createFileNotes cfg v files).2 in
      success r + skipped r + failed r = length files)
  /\ (let r := (removeFileNotes cfg v files).2 in
      success r + skipped r + failed r = length files).
Proof.
  cbv zeta. repeat split.
  - apply createFileNotes_eachInOrder.
  - apply eachInOrder_length.
  - apply removeFileNotes_eachInOrder.
  - apply eachInOrder_length.
  - rewrite createFileNotes_eachInOrder. cbn [snd]. by rewrite tally_total, eachInOrder_length.
  - rewrite removeFileNotes_eachInOrder. cbn [snd]. by rewrite tally_total, eachInOrder_length.
Qed.

(** Extensions [mp4,pdf] over a vault with [a.mp4], [b.pdf], [c.txt] and
    [a.md]: the note of [a.mp4] is there already, the one of [b.pdf] is
    created, and the other two files are not looked at. *)
Example createAllFileNotes_scenario :
  let plugin := onload {| fileExtensions := "mp4,pdf"; autoCreate := false;
                          excludedFiles := []; excludedFolders := [];
                          hideFilesWithNotes := false; noteTemplate := "![[{{filename}}]]";
                          notesFolder := ""; addSourceFrontmatter := false |} in
  (createAllFileNotes plugin (vaultOf ["a.mp4"; "b.pdf"; "c.txt"; "a.md"] [])).1.2
  = Some {| success := 1; skipped := 1; failed := 0 |}.
Proof. by vm_compute. Qed.

(** The in-memory vault obeys the storage laws. *)
#[global] Instance MemVault_Laws : VaultLaws MemVault.
Proof.
  split.
  - intros v p f. simpl. unfold mem_lookup.
    destruct (entries v !! p) as [[c|]|]; simpl; [|done..]. by intros [= <-].
  - intros v p c v'. simpl. unfold mem_create, mem_lookup.
    case_bool_decide; [done|]. destruct (entries v !! p); [done|].
    intros [= <-]. simpl. rewrite lookup_insert_eq. by eexists.
  - intros v p c q Hq. simpl. unfold mem_create, mem_lookup.
    case_bool_decide; [done|]. destruct (entries v !! p); [done|].
    simpl. by rewrite lookup_insert_ne.
  - intros v f v'. simpl. unfold mem_delete, mem_lookup.
    case_bool_decide; [done|]. intros [= <-]. simpl. by rewrite lookup_delete_eq.
  - intros v f q Hq. simpl. unfold mem_delete, mem_lookup.
    case_bool_decide; [done|]. simpl. by rewrite lookup_delete_ne.
Qed.

Section BatchCreateTwice.
Context {V : Type} `{VaultLaws V}.
Variable cfg : FileNoteSettings.

Lemma createOne_keeps (v : V) file q :
  is_Some (getAbstractFileByPath v q) ->
  is_Some (getAbstractFileByPath (createOne cfg v file).1 q).
Proof.
  intros Hq. unfold createOne.
  destruct (getAbstractFileByPath v (getNotePath cfg file)) eqn:Hnote; [done|].
  assert (q <> getNotePath cfg file) as Hne.
  { intros ->. rewrite Hnote in Hq. by destruct Hq. }
  pose proof (create_frame v _ (getNoteContent cfg file) q Hne) as Hframe.
  destruct (vaultCreate v _ _); simpl in *; by rewrite Hframe.
Qed.

Lemma eachInOrder_create_keeps (v : V) files q :
  is_Some (getAbstractFileByPath v q) ->
  is_Some (getAbstractFileByPath (eachInOrder (createOne cfg) v files).1 q).
Proof.
  revert v. induction files as [|file rest IH]; intros v Hq; [done|].
  simpl. pose proof (createOne_keeps v file q Hq) as H1.
  destruct (createOne cfg v file) as [v1 o]. specialize (IH v1 H1).
  by destruct (eachInOrder (createOne cfg) v1 rest).
Qed.

Lemma createOne_not_failed (v : V) file :
  (createOne cfg v file).2 <> Failed ->
  is_Some (getAbstractFileByPath (createOne cfg v file).1 (getNotePath cfg file)).
Proof.
  unfold createOne.
  destruct (getAbstractFileByPath v (getNotePath cfg file)) eqn:Hnote.
  - intros _. simpl. rewrite Hnote. by eexists.
  - destruct (vaultCreate v _ _) eqn:Hc; simpl; [|done].
    intros _. by eapply create_resolved.
Qed.

Lemma failed_tally_cons o os :
  failed (tally (o :: os)) = 0 <-> o <> Failed /\ failed (tally os) = 0.
Proof.
  unfold tally. simpl. rewrite filter_cons.
  destruct o; case_decide; simpl; try done; split; try done; try (by intros [_ ?]); by intros [? _].
Qed.

(** When nothing failed, every note path of the list is taken afterwards. *)
Lemma no_failure_notes_exist (v : V) files :
  failed (tally (eachInOrder (createOne cfg) v files).2) = 0 ->
  Forall (fun file =>
            is_Some (getAbstractFileByPath (eachInOrder (createOne cfg) v files).1
                                           (getNotePath cfg file))) files.
Proof.
  revert v. induction files as [|file rest IH]; intros v Hnone; [constructor|].
  simpl in *. pose proof (createOne_not_failed v file) as Hone.
  destruct (createOne cfg v file) as [v1 o]. specialize (IH v1).
  pose proof (eachInOrder_create_keeps v1 rest (getNotePath cfg file)) as Hkeep.
  destruct (eachInOrder (createOne cfg) v1 rest) as [v2 os]. simpl in *.
  apply failed_tally_cons in Hnone as [Ho Hos].
  constructor; [apply Hkeep, Hone, Ho | by apply IH].
Qed.

(** When every note path is taken, the whole list is skipped. *)
Lemma notes_exist_all_skipped (v : V) files :
  Forall (fun file => is_Some (getAbstractFileByPath v (getNotePath cfg file))) files ->
  createFileNotes cfg v files = (v, mkResult 0 (length files) 0).
Proof.
  intros Hall. unfold createFileNotes.
  assert (forall r, fold_left (createFileNotes_body cfg) files (v, r)
                    = (v, mkResult (success r) (skipped r + length files) (failed r))) as Hgen.
  { induction Hall as [|file rest [note Hnote] _ IH]; intros r.
    - simpl. destruct r. simpl. f_equal. f_equal. lia.
    - simpl. rewrite Hnote, IH. simpl. f_equal. f_equal. lia. }
  by rewrite Hgen.
Qed.

End BatchCreateTwice.

(** C6, as the code has it.  When the first batch create reports no
    failure, a second batch create on the same list, run on the vault the
    first one left, changes nothing and reports [success = 0],
    [skipped = N] and [failed = 0]. *)
Theorem createFileNotes_twice {V : Type} `{VaultLaws V}
    (cfg : FileNoteSettings) (v : V) (files : list TFile) :
  failed (createFileNotes cfg v files).2 = 0 ->
  createFileNotes cfg (createFileNotes cfg v files).1 files
  = ((createFileNotes cfg v files).1,
     {| success := 0; skipped := length files; failed := 0 |}).
Proof.
  rewrite createFileNotes_eachInOrder. cbn [fst snd]. intros Hnone.
  apply notes_exist_all_skipped. by apply no_failure_notes_exist.
Qed.

(** A note path the storage refuses: the first batch create fails on it,
    and so does the second, which skips nothing. *)
Lemma createFileNotes_twice_after_failure :
  let v := vaultOf ["a.mp4"] ["a.md"] in
  let files := [fileAt "a.mp4"] in
  (createFileNotes DEFAULT_SETTINGS v files).2
    = {| success := 0; skipped := 0; failed := 1 |}
  /\ (createFileNotes DEFAULT_SETTINGS (createFileNotes DEFAULT_SETTINGS v files).1 files).2
    = {| success := 0; skipped := 0; failed := 1 |}.
Proof. by vm_compute. Qed.

Lemma createFileNotes_twice_witness :
  let v := vaultOf ["a.mp4"; "b.pdf"; "a.md"] [] in
  let files := [fileAt "a.mp4"; fileAt "b.pdf"] in
  (createFileNotes DEFAULT_SETTINGS v files).2
    = {| success := 1; skipped := 1; failed := 0 |}
  /\ (createFileNotes DEFAULT_SETTINGS (createFileNotes DEFAULT_SETTINGS v files).1 files).2
    = {| success := 0; skipped := 2; failed := 0 |}.
Proof.
  split; [by vm_compute|].
  rewrite (createFileNotes_twice DEFAULT_SETTINGS
             (vaultOf ["a.mp4"; "b.pdf"; "a.md"] []) [fileAt "a.mp4"; fileAt "b.pdf"]).
  - reflexivity.
  - by vm_compute.
Defined.

(** ** Bulk removal *)

Section BatchRemove.
Context {V : Type} `{VaultLaws V}.
Variable cfg : FileNoteSettings.


Lemma removeOne_keeps_gone (v : V) file q :
  noNoteFile v q -> noNoteFile (removeOne cfg v file).1 q.
Proof.
  unfold removeOne, noNoteFile. intros Hq.
  destruct (getAbstractFileByPath v (getNotePath cfg file)) as [[note|d]|] eqn:Hnote;
    [|done..].
  apply lookup_path in Hnote as Hp.
  assert (q <> path note) as Hne.
  { intros ->. rewrite Hp in Hq. by apply (Hq note). }
  pose proof (delete_frame v note q Hne) as Hframe.
  destruct (vaultDelete v note); simpl in *; intros n; rewrite Hframe; apply Hq.
Qed.




End BatchRemove.

Lemma isEligibleFile_extension (f : TFile) :
  isEligibleFile (AFile f) = true
  <-> JS.toLowerCase (extension f) ∉ ["md"; "canvas"; "base"].
Proof.
  unfold isEligibleFile, EXCLUDED_EXTENSIONS.
  rewrite negb_true_iff, bool_decide_eq_false. by rewrite elem_of_list_to_set.
Qed.




(** ** Extension filter *)

Section ExtensionFilter.


Lemma split_not_nil sep s : JS.split sep s <> [].
Proof.
  destruct s as [|c r]; [done|]. simpl.
  destruct (Ascii.eqb c sep); [done|]. by destruct (JS.split sep r).
Qed.

(** Splitting and joining are inverse, and no piece holds a separator. *)
Lemma join_split sep s : JS.join sep (JS.split sep s) = s.
Proof.
  induction s as [|c r IH]; [done|]. simpl.
  destruct (Ascii.eqb c sep) eqn:Hc.
  - apply Ascii.eqb_eq in Hc as ->.
    pose proof (split_not_nil sep r) as Hne.
    destruct (JS.split sep r) as [|p ps]; [done|].
    change (JS.join sep ("" :: p :: ps)) with ("" +:+ String sep (JS.join sep (p :: ps))).
    by rewrite IH.
  - pose proof (split_not_nil sep r) as Hne.
    destruct (JS.split sep r) as [|p ps]; [done|].
    destruct ps as [|p' ps].
    + simpl in *. by rewrite IH.
    + change (JS.join sep (String c p :: p' :: ps))
        with (String c (p +:+ String sep (JS.join sep (p' :: ps)))).
      change (JS.join sep (p :: p' :: ps))
        with (p +:+ String sep (JS.join sep (p' :: ps))) in IH.
      by rewrite IH.
Qed.


(** [trim] takes white space off both ends and nothing else. *)
Lemma trimStart_spec s :
  exists l, s = l +:+ JS.trimStart s
            /\ JS.allWhiteSpace l = true
            /\ JS.startsWithWhiteSpace (JS.trimStart s) = false.
Proof.
  induction s as [|c r (l & Hl & Hws & Hhead)].
  - by exists "".
  - simpl. destruct (JS.isWhiteSpace c) eqn:Hc.
    + exists (String c l). rewrite app_cons, <- Hl. simpl. by rewrite Hc, Hws.
    + exists "". by simpl.
Qed.

Lemma trimEnd_spec s :
  exists r, s = JS.trimEnd s +:+ r
            /\ JS.allWhiteSpace r = true
            /\ JS.endsWithWhiteSpace (JS.trimEnd s) = false
            /\ (JS.startsWithWhiteSpace s = false ->
                JS.startsWithWhiteSpace (JS.trimEnd s) = false).
Proof.
  induction s as [|c s (r & Hr & Hws & Hlast & Hhead)].
  - by exists "".
  - simpl. destruct (JS.trimEnd s) as [|d t] eqn:Ht.
    + destruct (JS.isWhiteSpace c) eqn:Hc.
      * exists (String c r). rewrite app_empty_l in *. subst r. simpl.
        by rewrite Hc, Hws.
      * exists r. rewrite app_cons, <- Hr. simpl. by rewrite Hc.
    + exists r. rewrite app_cons, <- Hr. by simpl.
Qed.

Lemma trim_spec s :
  exists l r, s = l +:+ JS.trim s +:+ r
              /\ JS.allWhiteSpace l = true /\ JS.allWhiteSpace r = true
              /\ JS.startsWithWhiteSpace (JS.trim s) = false
              /\ JS.endsWithWhiteSpace (JS.trim s) = false.
Proof.
  destruct (trimStart_spec s) as (l & Hl & Hlws & Hhead).
  destruct (trimEnd_spec (JS.trimStart s)) as (r & Hr & Hrws & Hlast & Hkeep).
  exists l, r. unfold JS.trim. rewrite <- Hr, <- Hl. repeat split; auto.
Qed.

Lemma getExtensions_result plugin :
  cacheValid plugin ->
  (getExtensions plugin).1 = parseExtensions (fileExtensions (settings plugin)).
Proof.
  unfold cacheValid, getExtensions. by destruct (cachedExtensions plugin).
Qed.

Lemma getExtensions_plugin plugin :
  settings (getExtensions plugin).2 = settings plugin
  /\ excludedFilesSet (getExtensions plugin).2 = excludedFilesSet plugin
  /\ excludedFoldersSet (getExtensions plugin).2 = excludedFoldersSet plugin
  /\ (cacheValid plugin -> cacheValid (getExtensions plugin).2).
Proof.
  unfold cacheValid, getExtensions.
  destruct (cachedExtensions plugin) eqn:Hc; simpl; rewrite ?Hc; auto.
Qed.

Lemma saveSettings_valid plugin : cacheValid (saveSettings plugin) /\ setsRebuilt (saveSettings plugin).
Proof. by split. Qed.


Lemma parseExtensions_elem raw ext :
  ext ∈ parseExtensions raw
  <-> ext <> "" /\ ext <> "md"
      /\ exists piece, piece ∈ JS.split ","%char raw /\ ext = JS.toLowerCase (JS.trim piece).
Proof.
  unfold parseExtensions.
  rewrite elem_of_list_to_set, list_elem_of_filter, list_elem_of_fmap.
  assert (String.length ext <> 0 <-> ext <> "") as ->.
  { by destruct ext. }
  split.
  - intros [[? ?] (piece & ? & ?)]. eauto.
  - intros (? & ? & piece & ? & ?). eauto.
Qed.





End ExtensionFilter.



(** ** Eligibility *)

Section Eligibility.

Lemma isInExcludedFolder_iff plugin p :
  isInExcludedFolder plugin p = true
  <-> exists folder, folder ∈ excludedFolders (settings plugin)
                     /\ JS.startsWith p (folder +:+ "/") = true.
Proof.
  unfold isInExcludedFolder. rewrite existsb_exists.
  split; intros (folder & Hin & Hpre); exists folder; by rewrite ?list_elem_of_In in *.
Qed.

(** The four guards as one conjunction. *)
Lemma shouldCreateNoteFor_guards plugin f :
  (shouldCreateNoteFor plugin (AFile f)).1
  = isEligibleFile (AFile f)
    && bool_decide (JS.toLowerCase (extension f) ∈ (getExtensions plugin).1)
    && negb (bool_decide (path f ∈ excludedFilesSet plugin))
    && negb (isInExcludedFolder plugin (path f)).
Proof.
  unfold shouldCreateNoteFor.
  destruct (isEligibleFile (AFile f)); [|done]. simpl.
  destruct (getExtensions_plugin plugin) as (Hs & Hfiles & _ & _).
  destruct (getExtensions plugin) as [extensions plugin']. simpl in *.
  unfold isInExcludedFolder. rewrite Hs, Hfiles.
  destruct (bool_decide (JS.toLowerCase (extension f) ∈ extensions)); [|done]. simpl.
  destruct (bool_decide (path f ∈ excludedFilesSet plugin)); [done|]. simpl.
  by destruct (existsb _ _).
Qed.

End Eligibility.

(** C5.  With the cache and the exclusion sets in step with the settings,
    [shouldCreateNoteFor] answers true exactly for a file whose
    lower-cased extension is none of [md], [canvas] and [base] and is in
    the configured extension set, whose path is not in the excluded-files
    list, and for which no excluded folder [f] has [f + '/'] as a prefix of
    the path.  So a file anywhere below an excluded folder is never
    selected. *)
Theorem shouldCreateNoteFor_selects (plugin : FileNotePlugin) (file : TAbstractFile) :
  cacheValid plugin -> setsRebuilt plugin ->
  ((shouldCreateNoteFor plugin file).1 = true
   <-> exists f,
         file = AFile f
         /\ (JS.toLowerCase (extension f) ∉ ["md"; "canvas"; "base"])
         /\ (JS.toLowerCase (extension f) ∈ parseExtensions (fileExtensions (settings plugin)))
         /\ (path f ∉ excludedFiles (settings plugin))
         /\ ~ (exists folder, folder ∈ excludedFolders (settings plugin)
                              /\ JS.startsWith (path f) (folder +:+ "/") = true))
  /\ (forall f folder rest,
        file = AFile f ->
        folder ∈ excludedFolders (settings plugin) ->
        path f = folder +:+ "/" +:+ rest ->
        (shouldCreateNoteFor plugin file).1 = false).
Proof.
  intros Hcache [Hfiles _]. split.
  - destruct file as [f|d].
    + rewrite shouldCreateNoteFor_guards, getExtensions_result by done.
      rewrite !andb_true_iff, !negb_true_iff, !bool_decide_eq_false, bool_decide_eq_true.
      rewrite isEligibleFile_extension, Hfiles, elem_of_list_to_set.
      rewrite <- not_true_iff_false, isInExcludedFolder_iff.
      split.
      * intros [[[? ?] ?] ?]. by exists f.
      * intros (f' & [= <-] & ? & ? & ? & ?). done.
    + simpl. split; [done|]. by intros (f & ? & _).
  - intros f folder rest -> Hin Hpath.
    rewrite shouldCreateNoteFor_guards.
    assert (isInExcludedFolder plugin (path f) = true) as ->.
    { apply isInExcludedFolder_iff. exists folder. split; [done|].
      rewrite Hpath, <- app_assoc'. apply startsWith_app. }
    apply andb_false_r.
Qed.

Lemma shouldCreateNoteFor_selects_witness :
  let plugin := onload {| fileExtensions := "mp4, pdf"; autoCreate := false;
                          excludedFiles := ["inbox/draft.pdf"]; excludedFolders := ["A"];
                          hideFilesWithNotes := false; noteTemplate := "![[{{filename}}]]";
                          notesFolder := ""; addSourceFrontmatter := false |} in
  (shouldCreateNoteFor plugin (AFile (fileAt "A/B/c.pdf"))).1 = false
  /\ (shouldCreateNoteFor plugin (AFile (fileAt "clips/video.MP4"))).1 = true.
Proof.
  cbv zeta. set (plugin := onload _). split.
  - destruct (shouldCreateNoteFor_selects plugin (AFile (fileAt "A/B/c.pdf")) I) as [_ Hbelow].
    + by split.
    + apply (Hbelow (fileAt "A/B/c.pdf") "A" "B/c.pdf"); [reflexivity| |reflexivity].
      apply list_elem_of_In. vm_compute. tauto.
  - destruct (shouldCreateNoteFor_selects plugin (AFile (fileAt "clips/video.MP4")) I) as [Hiff _].
    + by split.
    + by vm_compute.
Defined.

(** ** Exclusion toggles *)

Section ToggleFacts.
Context {A : Type} `{EqDecision A}.

Lemma filter_out_pushed (p : A) (l : list A) :
  p ∉ l -> filter (fun q => q ≠ p) (l ++ [p]) = l.
Proof.
  intros Hp. rewrite filter_app. simpl. rewrite filter_cons, filter_nil.
  case_decide; [done|]. rewrite app_nil_r.
  induction l as [|a l IH]; [done|].
  rewrite not_elem_of_cons in Hp. destruct Hp as [Hne Hp].
  rewrite filter_cons. case_decide; [|done]. by rewrite IH.
Qed.

Lemma filter_out_absent (p : A) (l : list A) :
  p ∉ l -> filter (fun q => q ≠ p) l = l.
Proof.
  intros Hp. induction l as [|a l IH]; [done|].
  rewrite not_elem_of_cons in Hp. destruct Hp as [Hne Hp].
  rewrite filter_cons. case_decide; [|done]. by rewrite IH.
Qed.

Lemma push_back_filtered (p : A) (l : list A) (q : A) :
  p ∈ l -> (q ∈ filter (fun q => q ≠ p) l ++ [p] <-> q ∈ l).
Proof.
  intros Hp. rewrite elem_of_app, list_elem_of_filter, list_elem_of_singleton.
  destruct (decide (q = p)) as [->|Hne].
  - split; [done|]. intros _. by right.
  - split; [by intros [[_ ?]|?] | intros ?; by left].
Qed.

End ToggleFacts.

Section Toggles.

Lemma toggleFileExclusion_rebuilt plugin file exclude :
  setsRebuilt (toggleFileExclusion plugin file exclude)
  /\ cacheValid (toggleFileExclusion plugin file exclude).
Proof. apply and_comm, saveSettings_valid. Qed.

Lemma toggleFolderExclusion_rebuilt plugin folder exclude :
  setsRebuilt (toggleFolderExclusion plugin folder exclude)
  /\ cacheValid (toggleFolderExclusion plugin folder exclude).
Proof. apply and_comm, saveSettings_valid. Qed.

(** the list of excluded files after a toggle *)
Lemma toggleFileExclusion_list plugin file exclude :
  setsRebuilt plugin ->
  excludedFiles (settings (toggleFileExclusion plugin file exclude))
  = if exclude then
      if decide (path file ∈ excludedFiles (settings plugin))
      then excludedFiles (settings plugin)
      else excludedFiles (settings plugin) ++ [path file]
    else filter (fun p => p ≠ path file) (excludedFiles (settings plugin)).
Proof.
  intros [Hfiles _]. unfold toggleFileExclusion. destruct exclude; [|done].
  rewrite Hfiles. case_bool_decide as Hin; rewrite elem_of_list_to_set in Hin;
    case_decide; done.
Qed.

Lemma toggleFolderExclusion_list plugin folder exclude :
  setsRebuilt plugin ->
  excludedFolders (settings (toggleFolderExclusion plugin folder exclude))
  = if exclude then
      if decide (folderPath folder ∈ excludedFolders (settings plugin))
      then excludedFolders (settings plugin)
      else excludedFolders (settings plugin) ++ [folderPath folder]
    else filter (fun p => p ≠ folderPath folder) (excludedFolders (settings plugin)).
Proof.
  intros [_ Hfolders]. unfold toggleFolderExclusion. destruct exclude; [|done].
  rewrite Hfolders. case_bool_decide as Hin; rewrite elem_of_list_to_set in Hin;
    case_decide; done.
Qed.

Lemma toggleFileExclusion_set plugin file exclude :
  excludedFilesSet (toggleFileExclusion plugin file exclude)
  = list_to_set (excludedFiles (settings (toggleFileExclusion plugin file exclude))).
Proof. reflexivity. Qed.

Lemma toggleFolderExclusion_set plugin folder exclude :
  excludedFoldersSet (toggleFolderExclusion plugin folder exclude)
  = list_to_set (excludedFolders (settings (toggleFolderExclusion plugin folder exclude))).
Proof. reflexivity. Qed.

(** Two toggles in a row, the first one changing the list. *)
Lemma exclude_include (l : list string) (p : string) :
  p ∉ l -> filter (fun q => q ≠ p) (l ++ [p]) = l.
Proof. apply filter_out_pushed. Qed.

Lemma include_exclude_set (l : list string) (p : string) :
  p ∈ l ->
  list_to_set (C := gset string) (filter (fun q => q ≠ p) l ++ [p]) = list_to_set l.
Proof.
  intros Hp. apply set_eq. intros q.
  rewrite !elem_of_list_to_set. by apply push_back_filtered.
Qed.

End Toggles.

Section ToggleTwice.
Variable plugin : FileNotePlugin.
Hypothesis Hrebuilt : setsRebuilt plugin.

Lemma file_exclude_include file :
  path file ∉ excludedFiles (settings plugin) ->
  excludedFiles (settings (toggleFileExclusion (toggleFileExclusion plugin file true) file false))
  = excludedFiles (settings plugin).
Proof.
  intros Hout.
  rewrite toggleFileExclusion_list by apply toggleFileExclusion_rebuilt.
  rewrite toggleFileExclusion_list by done.
  rewrite decide_False by done. by apply exclude_include.
Qed.

Lemma file_include_exclude file :
  path file ∈ excludedFiles (settings plugin) ->
  excludedFilesSet (toggleFileExclusion (toggleFileExclusion plugin file false) file true)
  = excludedFilesSet plugin.
Proof.
  intros Hin. destruct Hrebuilt as [Hfiles _].
  rewrite toggleFileExclusion_set.
  rewrite toggleFileExclusion_list by apply toggleFileExclusion_rebuilt.
  rewrite toggleFileExclusion_list by done.
  rewrite decide_False.
  - rewrite Hfiles. by apply include_exclude_set.
  - rewrite list_elem_of_filter. by intros [Hne _].
Qed.

Lemma file_menu_twice file :
  excludedFilesSet (fileExclusionMenuClick (fileExclusionMenuClick plugin file) file)
  = excludedFilesSet plugin.
Proof.
  pose proof Hrebuilt as [Hfiles _].
  unfold fileExclusionMenuClick at 2. unfold isFileExcluded.
  case_bool_decide as Hin; rewrite Hfiles, elem_of_list_to_set in Hin.
  - unfold fileExclusionMenuClick, isFileExcluded.
    rewrite toggleFileExclusion_set, toggleFileExclusion_list by done.
    rewrite bool_decide_eq_false_2.
    + by apply file_include_exclude.
    + rewrite elem_of_list_to_set, list_elem_of_filter. by intros [Hne _].
  - unfold fileExclusionMenuClick, isFileExcluded.
    rewrite toggleFileExclusion_set, toggleFileExclusion_list by done.
    rewrite decide_False by done.
    rewrite bool_decide_eq_true_2.
    + rewrite toggleFileExclusion_set, file_exclude_include by done. by rewrite Hfiles.
    + rewrite elem_of_list_to_set, elem_of_app, list_elem_of_singleton. by right.
Qed.

Lemma folder_exclude_include folder :
  folderPath folder ∉ excludedFolders (settings plugin) ->
  excludedFolders
    (settings (toggleFolderExclusion (toggleFolderExclusion plugin folder true) folder false))
  = excludedFolders (settings plugin).
Proof.
  intros Hout.
  rewrite toggleFolderExclusion_list by apply toggleFolderExclusion_rebuilt.
  rewrite toggleFolderExclusion_list by done.
  rewrite decide_False by done. by apply exclude_include.
Qed.

Lemma folder_include_exclude folder :
  folderPath folder ∈ excludedFolders (settings plugin) ->
  excludedFoldersSet (toggleFolderExclusion (toggleFolderExclusion plugin folder false) folder true)
  = excludedFoldersSet plugin.
Proof.
  intros Hin. destruct Hrebuilt as [_ Hfolders].
  rewrite toggleFolderExclusion_set.
  rewrite toggleFolderExclusion_list by apply toggleFolderExclusion_rebuilt.
  rewrite toggleFolderExclusion_list by done.
  rewrite decide_False.
  - rewrite Hfolders. by apply include_exclude_set.
  - rewrite list_elem_of_filter. by intros [Hne _].
Qed.

Lemma folder_menu_twice folder :
  excludedFoldersSet (folderExclusionMenuClick (folderExclusionMenuClick plugin folder) folder)
  = excludedFoldersSet plugin.
Proof.
  pose proof Hrebuilt as [_ Hfolders].
  unfold folderExclusionMenuClick at 2. unfold isFolderExcluded.
  case_bool_decide as Hin; rewrite Hfolders, elem_of_list_to_set in Hin.
  - unfold folderExclusionMenuClick, isFolderExcluded.
    rewrite toggleFolderExclusion_set, toggleFolderExclusion_list by done.
    rewrite bool_decide_eq_false_2.
    + by apply folder_include_exclude.
    + rewrite elem_of_list_to_set, list_elem_of_filter. by intros [Hne _].
  - unfold folderExclusionMenuClick, isFolderExcluded.
    rewrite toggleFolderExclusion_set, toggleFolderExclusion_list by done.
    rewrite decide_False by done.
    rewrite bool_decide_eq_true_2.
    + rewrite toggleFolderExclusion_set, folder_exclude_include by done. by rewrite Hfolders.
    + rewrite elem_of_list_to_set, elem_of_app, list_elem_of_singleton. by right.
Qed.

End ToggleTwice.

(** C8.  Starting with the exclusion sets in step with the settings:
    excluding a path that is not excluded and then including it gives the
    list back; including a path that is excluded and then excluding it
    gives back a set with the same members; two clicks on the exclusion
    entry of the context menu, which offers the opposite of the present
    state, give the set back; excluding a path that is already excluded
    leaves the list as it is, and so does including one that is not
    excluded.  The same holds for folders. *)
Theorem exclusion_toggled_twice (plugin : FileNotePlugin) (file : TFile) (folder : TFolder) :
  setsRebuilt plugin ->
  let files p := excludedFiles (settings p) in
  let folders p := excludedFolders (settings p) in
  ((path file ∉ files plugin ->
    files (toggleFileExclusion (toggleFileExclusion plugin file true) file false) = files plugin
    /\ excludedFilesSet (toggleFileExclusion (toggleFileExclusion plugin file true) file false)
       = excludedFilesSet plugin
    /\ files (toggleFileExclusion plugin file false) = files plugin)
   /\ (path file ∈ files plugin ->
       excludedFilesSet (toggleFileExclusion (toggleFileExclusion plugin file false) file true)
       = excludedFilesSet plugin
       /\ files (toggleFileExclusion plugin file true) = files plugin)
   /\ excludedFilesSet (fileExclusionMenuClick (fileExclusionMenuClick plugin file) file)
      = excludedFilesSet plugin)
  /\ ((folderPath folder ∉ folders plugin ->
       folders (toggleFolderExclusion (toggleFolderExclusion plugin folder true) folder false)
       = folders plugin
       /\ excludedFoldersSet
            (toggleFolderExclusion (toggleFolderExclusion plugin folder true) folder false)
          = excludedFoldersSet plugin
       /\ folders (toggleFolderExclusion plugin folder false) = folders plugin)
      /\ (folderPath folder ∈ folders plugin ->
          excludedFoldersSet
            (toggleFolderExclusion (toggleFolderExclusion plugin folder false) folder true)
          = excludedFoldersSet plugin
          /\ folders (toggleFolderExclusion plugin folder true) = folders plugin)
      /\ excludedFoldersSet
           (folderExclusionMenuClick (folderExclusionMenuClick plugin folder) folder)
         = excludedFoldersSet plugin).
Proof.
  intros Hrebuilt. cbv zeta. pose proof Hrebuilt as [Hfiles Hfolders].
  split; (split; [|split]).
  - intros Hout. split; [by apply file_exclude_include|]. split.
    + rewrite toggleFileExclusion_set, file_exclude_include by done. by rewrite Hfiles.
    + rewrite toggleFileExclusion_list by done. by apply filter_out_absent.
  - intros Hin. split; [by apply file_include_exclude|].
    rewrite toggleFileExclusion_list by done. by rewrite decide_True.
  - by apply file_menu_twice.
  - intros Hout. split; [by apply folder_exclude_include|]. split.
    + rewrite toggleFolderExclusion_set, folder_exclude_include by done. by rewrite Hfolders.
    + rewrite toggleFolderExclusion_list by done. by apply filter_out_absent.
  - intros Hin. split; [by apply folder_include_exclude|].
    rewrite toggleFolderExclusion_list by done. by rewrite decide_True.
  - by apply folder_menu_twice.
Qed.

Lemma exclusion_toggled_twice_witness :
  let plugin := onload {| fileExtensions := "mp4"; autoCreate := false;
                          excludedFiles := ["a.mp4"]; excludedFolders := ["Archive"];
                          hideFilesWithNotes := false; noteTemplate := "![[{{filename}}]]";
                          notesFolder := ""; addSourceFrontmatter := false |} in
  let file := fileAt "clips/b.mp4" in
  let folder := {| folderPath := "Archive"; folderName := "Archive" |} in
  excludedFiles (settings (toggleFileExclusion (toggleFileExclusion plugin file true) file false))
    = ["a.mp4"]
  /\ excludedFoldersSet
       (toggleFolderExclusion (toggleFolderExclusion plugin folder false) folder true)
     = excludedFoldersSet plugin.
Proof.
  cbv zeta. set (plugin := onload _).
  destruct (exclusion_toggled_twice plugin (fileAt "clips/b.mp4")
              {| folderPath := "Archive"; folderName := "Archive" |})
    as [[Hfile _] [_ [Hfolder _]]].
  - by split.
  - split.
    + apply Hfile. intros Hin. apply list_elem_of_In in Hin. vm_compute in Hin.
      intuition discriminate.
    + apply Hfolder. apply list_elem_of_In. vm_compute. tauto.
Defined.

(** ** Hidden Files Manager *)

Section HiddenFilesFacts.
Context {V : Type} `{VaultAPI V}.
Variable cfg : FileNoteSettings.
Variable v : V.

Lemma update_body_visit visited n entry :
  update_body cfg v (visited, n) entry
  = (visited ++ [visit cfg v entry], if hides cfg v entry.1 then S n else n).
Proof.
  destruct entry as [p item]. unfold update_body, visit, hides. simpl.
  destruct (String.eqb p (JS.replaceExtension ".md" p)); [done|]. simpl.
  destruct (hideFilesWithNotes cfg); [|done]. simpl.
  destruct (getAbstractFileByPath v (JS.replaceExtension ".md" p)) eqn:E.
  - rewrite bool_decide_eq_true_2; [done | by eexists].
  - rewrite bool_decide_eq_false_2; [done | by intros [? ?]].
Qed.

Lemma update_loop items visited n :
  fold_left (update_body cfg v) items (visited, n)
  = (visited ++ (visit cfg v <$> items),
     n + length (filter (fun entry => hides cfg v entry.1 = true) items)).
Proof.
  revert visited n. induction items as [|entry items IH]; intros visited n.
  - simpl. rewrite app_nil_r. f_equal. lia.
  - cbn [fold_left]. rewrite update_body_visit, IH, <- app_assoc. cbn [fmap list_fmap app].
    rewrite filter_cons. destruct (hides cfg v entry.1); case_decide; try done;
      simpl; f_equal; lia.
Qed.

Lemma marked_add item : markedHidden (addClass "file-note-hidden" item).
Proof.
  unfold markedHidden, addClass. simpl.
  apply elem_of_union. left. by apply elem_of_singleton.
Qed.

Lemma marked_remove item : ~ markedHidden (removeClass "file-note-hidden" item).
Proof.
  unfold markedHidden, removeClass. simpl.
  intros [_ Hn]%elem_of_difference. apply Hn. by apply elem_of_singleton.
Qed.

(** the mark of a visited item *)
Lemma visit_marked p item :
  (JS.replaceExtension ".md" p = p -> ~ markedHidden item) ->
  (markedHidden (visit cfg v (p, item)).2 <-> hides cfg v p = true)
  /\ (visit cfg v (p, item)).1 = p.
Proof.
  intros Hself. unfold visit. simpl.
  destruct (String.eqb p (JS.replaceExtension ".md" p)) eqn:Heq.
  - pose proof (proj1 (String.eqb_eq _ _) Heq) as Hp.
    split; [|done]. simpl. unfold hides. rewrite Heq. simpl.
    split; [|done]. intros Hm. by apply Hself in Hm.
  - destruct (hides cfg v p); simpl; split; try done.
    + split; [done|]. intros _. apply marked_add.
    + split; [|done]. intros Hm. by apply marked_remove in Hm.
Qed.

Lemma hides_iff p :
  hides cfg v p = true
  <-> JS.replaceExtension ".md" p <> p
      /\ hideFilesWithNotes cfg = true
      /\ is_Some (getAbstractFileByPath v (JS.replaceExtension ".md" p)).
Proof.
  unfold hides. rewrite !andb_true_iff, negb_true_iff, bool_decide_eq_true, String.eqb_neq.
  split; [intros [[? ?] ?] | intros (? & ? & ?)]; repeat split; auto.
Qed.

(** [update], when it reaches the loop *)
Lemma update_pass mgr others items :
  negb (hideFilesWithNotes cfg) && negb (hasHiddenFiles mgr) = false ->
  update cfg v mgr {| fileExplorerLeaves := {| fileItems := Some items |} :: others |}
  = ({| hasHiddenFiles :=
          negb (Nat.eqb (length (filter (fun entry => hides cfg v entry.1 = true) items)) 0) |},
     {| fileExplorerLeaves := {| fileItems := Some (visit cfg v <$> items) |} :: others |}).
Proof.
  intros Hgo. unfold update. rewrite Hgo. simpl. by rewrite update_loop.
Qed.

(** [update], in every other case, leaves manager and workspace alone *)
Lemma update_idle mgr ws :
  negb (hideFilesWithNotes cfg) && negb (hasHiddenFiles mgr) = true \/ explorerItems ws = [] ->
  explorerItems (update cfg v mgr ws).2 = explorerItems ws
  /\ ((update cfg v mgr ws).1 = mgr \/ explorerItems ws = []).
Proof.
  intros [Hidle|Hnone].
  - unfold update. by rewrite Hidle; auto.
  - unfold update. destruct (negb _ && negb _); [auto|].
    destruct ws as [[|[[items|]] others]]; auto.
    change (items = []) in Hnone. subst items. auto.
Qed.

Lemma visit_fst entry : (visit cfg v entry).1 = entry.1.
Proof.
  unfold visit. destruct (String.eqb _ _); [done|]. by destruct (hides cfg v entry.1).
Qed.

Lemma visited_paths (items : list (string * FileItem)) :
  (visit cfg v <$> items).*1 = items.*1.
Proof.
  induction items as [|entry items IH]; [done|].
  cbn [fmap list_fmap]. by rewrite visit_fst, <- IH.
Qed.

Lemma visited_marks (items : list (string * FileItem)) :
  (forall p item, (p, item) ∈ items -> JS.replaceExtension ".md" p = p -> ~ markedHidden item) ->
  forall p item', (p, item') ∈ visit cfg v <$> items ->
                  (markedHidden item' <-> hides cfg v p = true)
                  /\ exists item, (p, item) ∈ items.
Proof.
  intros Hself p item' Hin.
  apply list_elem_of_fmap in Hin as ([q item] & Heq & Hin).
  destruct (visit_marked q item (Hself q item Hin)) as [Hmark Hfst].
  rewrite <- Heq in Hmark, Hfst. simpl in *. subst q. eauto.
Qed.

Lemma none_counted (items : list (string * FileItem)) p item :
  negb (Nat.eqb (length (filter (fun entry => hides cfg v entry.1 = true) items)) 0) = false ->
  (p, item) ∈ items -> hides cfg v p = false.
Proof.
  rewrite negb_false_iff, Nat.eqb_eq. intros Hlen Hin.
  destruct (hides cfg v p) eqn:Hp; [|done].
  assert ((p, item) ∈ filter (fun entry => hides cfg v entry.1 = true) items) as Hf.
  { by apply list_elem_of_filter. }
  destruct (filter _ items); [by apply not_elem_of_nil in Hf | done].
Qed.

End HiddenFilesFacts.

(** C9.  Take a manager whose marks are its own.  An update pass keeps the
    items of the file explorer and their paths.  With the hide setting on,
    an item is marked hidden afterwards exactly when its note path differs
    from its own path and something exists at the note path; with the
    setting off, no item is marked afterwards.  The marks are still the
    manager's own after the pass. *)
Theorem update_marks_hidden {V : Type} `{VaultAPI V}
    (cfg : FileNoteSettings) (v : V) (mgr : HiddenFilesManager) (ws : Workspace) :
  marksFromManager mgr ws ->
  let after := update cfg v mgr ws in
  (explorerItems after.2).*1 = (explorerItems ws).*1
  /\ (hideFilesWithNotes cfg = true ->
      forall p item, (p, item) ∈ explorerItems after.2 ->
        (markedHidden item
         <-> JS.replaceExtension ".md" p <> p
             /\ is_Some (getAbstractFileByPath v (JS.replaceExtension ".md" p))))
  /\ (hideFilesWithNotes cfg = false ->
      forall p item, (p, item) ∈ explorerItems after.2 -> ~ markedHidden item)
  /\ marksFromManager after.1 after.2.
Proof.
  intros [Hself Hnone]. cbv zeta.
  destruct (negb (hideFilesWithNotes cfg) && negb (hasHiddenFiles mgr)) eqn:Hidle.
  { (* nothing to do *)
    apply andb_true_iff in Hidle as [Hoff Hclean].
    apply negb_true_iff in Hoff, Hclean.
    unfold update. rewrite Hoff, Hclean. simpl.
    split; [done|]. split; [done|]. split; [intros _; by apply Hnone | by split]. }
  destruct ws as [[|[[items|]] others]].
  - (* no file explorer *)
    unfold update. rewrite Hidle. simpl.
    split; [done|]. split; [by intros _ p item Hin; apply not_elem_of_nil in Hin|].
    split; [by intros _ p item Hin; apply not_elem_of_nil in Hin|]. by split.
  - (* the loop runs *)
    rewrite update_pass by done. cbn [fst snd].
    change (explorerItems {| fileExplorerLeaves := {| fileItems := Some ?l |} :: others |})
      with l in *.
    pose proof (visited_marks cfg v items Hself) as Hvisited.
    split; [apply visited_paths|]. split; [|split; [|split]].
    + intros Hon p item Hin. destruct (Hvisited p item Hin) as [-> _].
      rewrite hides_iff. tauto.
    + intros Hoff p item Hin. destruct (Hvisited p item Hin) as [-> _].
      rewrite hides_iff, Hoff. by intros (_ & ? & _).
    + intros p item Hin Hp. destruct (Hvisited p item Hin) as [-> _].
      rewrite hides_iff. by intros (? & _).
    + cbn [hasHiddenFiles]. intros Hcount p item Hin.
      destruct (Hvisited p item Hin) as [-> [item0 Hin0]].
      by rewrite (none_counted cfg v items p item0 Hcount Hin0).
  - (* no items *)
    unfold update. rewrite Hidle. simpl.
    split; [done|]. split; [by intros _ p item Hin; apply not_elem_of_nil in Hin|].
    split; [by intros _ p item Hin; apply not_elem_of_nil in Hin|]. by split.
Qed.

(** A manager starts with marks of its own: nothing is marked. *)
Lemma fresh_manager_marks (ws : Workspace) :
  Forall (fun entry => ~ markedHidden entry.2) (explorerItems ws) ->
  marksFromManager {| hasHiddenFiles := false |} ws.
Proof.
  rewrite Forall_forall. intros Hclean.
  split; [intros p item Hin _ | intros _ p item Hin]; apply (Hclean (p, item) Hin).
Qed.

(** [video.mp4] with its note [video.md]: the first pass marks the video;
    once the note is deleted, the next pass takes the mark off. *)
Lemma update_marks_hidden_witness :
  let cfg := {| fileExtensions := "mp4"; autoCreate := false;
                excludedFiles := []; excludedFolders := [];
                hideFilesWithNotes := true; noteTemplate := "![[{{filename}}]]";
                notesFolder := ""; addSourceFrontmatter := false |} in
  let ws0 := {| fileExplorerLeaves :=
                  [ {| fileItems := Some [("video.mp4", mkItem ∅); ("video.md", mkItem ∅)] |} ] |} in
  let pass1 := update cfg (vaultOf ["video.mp4"; "video.md"] []) {| hasHiddenFiles := false |} ws0 in
  let pass2 := update cfg (vaultOf ["video.mp4"] []) pass1.1 pass1.2 in
  (explorerItems pass2.2).*1 = ["video.mp4"; "video.md"]
  /\ (forall item, ("video.mp4", item) ∈ explorerItems pass1.2 -> markedHidden item)
  /\ (forall item, ("video.mp4", item) ∈ explorerItems pass2.2 -> ~ markedHidden item).
Proof.
  cbv zeta. split; [by vm_compute|]. set (cfg := mkSettings _ _ _ _ _ _ _ _). set (ws0 := mkWorkspace _).
  assert (marksFromManager {| hasHiddenFiles := false |} ws0) as Hfresh.
  { apply fresh_manager_marks. repeat constructor; simpl; apply not_elem_of_empty. }
  destruct (update_marks_hidden cfg (vaultOf ["video.mp4"; "video.md"] []) _ _ Hfresh)
    as (_ & Hon1 & _ & Hinv1).
  set (pass1 := update cfg (vaultOf ["video.mp4"; "video.md"] []) _ ws0) in *.
  destruct (update_marks_hidden cfg (vaultOf ["video.mp4"] []) _ _ Hinv1)
    as (_ & Hon2 & _ & _).
  split.
  - intros item Hin. apply (Hon1 eq_refl _ _ Hin). split; [discriminate|].
    vm_compute. by eexists.
  - intros item Hin Hmarked. apply (Hon2 eq_refl _ _ Hin) in Hmarked as [_ Hnote].
    vm_compute in Hnote. by destruct Hnote.
Defined.

(** * Further properties of the code *)

(** ** What the batch engine leaves alone *)

Section BatchFrames.
Context {V : Type} `{VaultLaws V}.
Variable cfg : FileNoteSettings.

Lemma createOne_frame (v : V) file q :
  is_Some (getAbstractFileByPath v q) \/ q <> getNotePath cfg file ->
  getAbstractFileByPath (createOne cfg v file).1 q = getAbstractFileByPath v q.
Proof.
  intros Hq. unfold createOne.
  destruct (getAbstractFileByPath v (getNotePath cfg file)) eqn:Hnote; [done|].
  assert (q <> getNotePath cfg file) as Hne.
  { destruct Hq as [Hq|Hq]; [|done]. intros ->. rewrite Hnote in Hq. by destruct Hq. }
  pose proof (create_frame v _ (getNoteContent cfg file) q Hne) as Hframe.
  by destruct (vaultCreate v _ _).
Qed.

Lemma removeOne_frame (v : V) file q :
  noNoteFile v q \/ q <> getNotePath cfg file ->
  getAbstractFileByPath (removeOne cfg v file).1 q = getAbstractFileByPath v q.
Proof.
  intros Hq. unfold removeOne.
  destruct (getAbstractFileByPath v (getNotePath cfg file)) as [[note|d]|] eqn:Hnote;
    [|done..].
  apply lookup_path in Hnote as Hp.
  assert (q <> path note) as Hne.
  { rewrite Hp. destruct Hq as [Hq|Hq]; [|done]. intros ->. by apply (Hq note). }
  pose proof (delete_frame v note q Hne) as Hframe.
  by destruct (vaultDelete v note).
Qed.

Lemma eachInOrder_create_frame (v : V) files q :
  is_Some (getAbstractFileByPath v q) \/ q ∉ getNotePath cfg <$> files ->
  getAbstractFileByPath (eachInOrder (createOne cfg) v files).1 q = getAbstractFileByPath v q.
Proof.
  revert v. induction files as [|file rest IH]; intros v Hq; [done|].
  rewrite fmap_cons, not_elem_of_cons in Hq.
  cbn [eachInOrder]. pose proof (createOne_frame v file q) as H1.
  destruct (createOne cfg v file) as [v1 o]. specialize (IH v1).
  destruct (eachInOrder (createOne cfg) v1 rest) as [v2 os]. cbn [fst] in *.
  rewrite IH, H1; [done| |]; [tauto|].
  rewrite H1 by tauto. tauto.
Qed.

Lemma eachInOrder_remove_frame (v : V) files q :
  noNoteFile v q \/ q ∉ getNotePath cfg <$> files ->
  getAbstractFileByPath (eachInOrder (removeOne cfg) v files).1 q = getAbstractFileByPath v q.
Proof.
  revert v. induction files as [|file rest IH]; intros v Hq; [done|].
  rewrite fmap_cons, not_elem_of_cons in Hq.
  cbn [eachInOrder]. pose proof (removeOne_frame v file q) as H1.
  pose proof (removeOne_keeps_gone cfg v file q) as Hgone.
  destruct (removeOne cfg v file) as [v1 o]. specialize (IH v1).
  destruct (eachInOrder (removeOne cfg) v1 rest) as [v2 os]. cbn [fst] in *.
  rewrite IH, H1; [done| |]; tauto.
Qed.

End BatchFrames.

(** X1.  Batch create never changes what is already in the vault, and
    touches no path but the note paths of its files: at a path that holds
    an entry, or that is the note path of none of the files, the vault
    answers after the batch as it did before. *)
Theorem createFileNotes_keeps_entries {V : Type} `{VaultLaws V}
    (cfg : FileNoteSettings) (v : V) (files : list TFile) (q : string) :
  is_Some (getAbstractFileByPath v q) \/ q ∉ getNotePath cfg <$> files ->
  getAbstractFileByPath (createFileNotes cfg v files).1 q = getAbstractFileByPath v q.
Proof.
  intros Hq. rewrite createFileNotes_eachInOrder. cbn [fst].
  by apply eachInOrder_create_frame.
Qed.

Lemma createFileNotes_keeps_entries_witness :
  let v := vaultOf ["clip.mp4"; "README"] [] in
  let files := [fileAt "clip.mp4"; fileAt "README"] in
  getAbstractFileByPath (createFileNotes DEFAULT_SETTINGS v files).1 "README"
  = Some (AFile (fileAt "README")).
Proof.
  cbv zeta.
  rewrite (createFileNotes_keeps_entries DEFAULT_SETTINGS
             (vaultOf ["clip.mp4"; "README"] []) [fileAt "clip.mp4"; fileAt "README"] "README").
  - reflexivity.
  - left. vm_compute. by eexists.
Defined.

(** X2.  Batch remove deletes nothing but note files at the note paths of
    its files: at a path that holds no file (nothing, or a folder), or that
    is the note path of none of the files, the vault answers after the
    batch as it did before. *)
Theorem removeFileNotes_keeps_entries {V : Type} `{VaultLaws V}
    (cfg : FileNoteSettings) (v : V) (files : list TFile) (q : string) :
  noNoteFile v q \/ q ∉ getNotePath cfg <$> files ->
  getAbstractFileByPath (removeFileNotes cfg v files).1 q = getAbstractFileByPath v q.
Proof.
  intros Hq. rewrite removeFileNotes_eachInOrder. cbn [fst].
  by apply eachInOrder_remove_frame.
Qed.

Lemma removeFileNotes_keeps_entries_witness :
  let v := vaultOf ["clip.mp4"; "clip.md"; "other.md"] [] in
  getAbstractFileByPath (removeFileNotes DEFAULT_SETTINGS v [fileAt "clip.mp4"]).1 "other.md"
  = Some (AFile (fileAt "other.md")).
Proof.
  cbv zeta.
  rewrite (removeFileNotes_keeps_entries DEFAULT_SETTINGS
             (vaultOf ["clip.mp4"; "clip.md"; "other.md"] []) [fileAt "clip.mp4"] "other.md").
  - reflexivity.
  - right. intros Hin. apply list_elem_of_In in Hin. vm_compute in Hin.
    intuition discriminate.
Defined.

Section NothingToRemove.
Context {V : Type} `{VaultAPI V}.
Variable cfg : FileNoteSettings.

Lemma getExistingNotes_nil (v : V) files :
  getExistingNotes cfg v files = []
  <-> Forall (fun file => noNoteFile v (getNotePath cfg file)) files.
Proof.
  unfold getExistingNotes, noNoteFile. induction files as [|file rest IH].
  - split; [constructor | done].
  - cbn [omap list_omap]. rewrite Forall_cons, <- IH.
    destruct (getAbstractFileByPath v (getNotePath cfg file)) as [[note|d]|].
    + split; [done|]. intros [Hno _]. by destruct (Hno note).
    + split; [|by intros [_ ?]]. intros ?. split; [|done]. by intros note.
    + split; [|by intros [_ ?]]. intros ?. split; [|done]. by intros note.
Qed.

Lemma no_notes_all_skipped (v : V) files :
  Forall (fun file => noNoteFile v (getNotePath cfg file)) files ->
  removeFileNotes cfg v files = (v, mkResult 0 (length files) 0).
Proof.
  intros Hall. unfold removeFileNotes.
  assert (forall r, fold_left (removeFileNotes_body cfg) files (v, r)
                    = (v, mkResult (success r) (skipped r + length files) (failed r))) as Hgen.
  { induction Hall as [|file rest Hno _ IH]; intros r.
    - simpl. destruct r. simpl. f_equal. f_equal. lia.
    - cbn [fold_left]. unfold removeFileNotes_body at 2. unfold noNoteFile in Hno.
      destruct (getAbstractFileByPath v (getNotePath cfg file)) as [[note|d]|];
        [by destruct (Hno note) | |]; rewrite IH; simpl; f_equal; f_equal; lia. }
  by rewrite Hgen.
Qed.

End NothingToRemove.

(** X3.  When none of the files has a note file ([getExistingNotes] is
    empty), batch remove leaves the vault as it is and reports every file
    as skipped. *)
Theorem removeFileNotes_nothing_to_remove {V : Type} `{VaultAPI V}
    (cfg : FileNoteSettings) (v : V) (files : list TFile) :
  getExistingNotes cfg v files = [] ->
  removeFileNotes cfg v files
  = (v, {| success := 0; skipped := length files; failed := 0 |}).
Proof.
  intros Hnone. apply no_notes_all_skipped. by apply getExistingNotes_nil.
Qed.

Lemma removeFileNotes_nothing_to_remove_witness :
  let v := vaultOf ["a.mp4"; "b.pdf"] [] in
  (removeFileNotes DEFAULT_SETTINGS v [fileAt "a.mp4"; fileAt "b.pdf"]).2
  = {| success := 0; skipped := 2; failed := 0 |}.
Proof.
  cbv zeta.
  rewrite (removeFileNotes_nothing_to_remove DEFAULT_SETTINGS
             (vaultOf ["a.mp4"; "b.pdf"] []) [fileAt "a.mp4"; fileAt "b.pdf"]).
  - reflexivity.
  - by vm_compute.
Defined.

Section RemovalBound.
Context {V : Type} `{VaultLaws V}.
Variable cfg : FileNoteSettings.

Lemma tally_cons o os :
  success (tally (o :: os)) + failed (tally (o :: os))
  = (if decide (o = Skipped) then 0 else 1) + (success (tally os) + failed (tally os)).
Proof.
  unfold tally. simpl. rewrite !filter_cons.
  destruct o; repeat case_decide; try done; simpl; lia.
Qed.

Lemma getExistingNotes_cons_length (v : V) file rest :
  length (getExistingNotes cfg v (file :: rest))
  = match getAbstractFileByPath v (getNotePath cfg file) with
    | Some (AFile _) => 1
    | _ => 0
    end + length (getExistingNotes cfg v rest).
Proof.
  unfold getExistingNotes. cbn [omap list_omap].
  by destruct (getAbstractFileByPath v (getNotePath cfg file)) as [[note|d]|].
Qed.

Lemma removal_bounded (v0 v : V) files :
  (forall q, noNoteFile v0 q -> noNoteFile v q) ->
  success (tally (eachInOrder (removeOne cfg) v files).2)
  + failed (tally (eachInOrder (removeOne cfg) v files).2)
  <= length (getExistingNotes cfg v0 files).
Proof.
  revert v. induction files as [|file rest IH]; intros v Hlater; [simpl; lia|].
  cbn [eachInOrder]. pose proof (removeOne_keeps_gone cfg v file) as Hkeep.
  assert ((removeOne cfg v file).2 <> Skipped ->
          exists note, getAbstractFileByPath v0 (getNotePath cfg file) = Some (AFile note))
    as Hwas.
  { unfold removeOne. intros Hattempt.
    destruct (getAbstractFileByPath v (getNotePath cfg file)) as [[note|d]|] eqn:Hnote;
      [|done..].
    destruct (getAbstractFileByPath v0 (getNotePath cfg file)) as [[n0|d0]|] eqn:Hwas0;
      [by eexists | |]; exfalso;
      apply (Hlater (getNotePath cfg file)) with (note := note); try done;
      intros n; by rewrite Hwas0. }
  destruct (removeOne cfg v file) as [v1 o]. specialize (IH v1).
  destruct (eachInOrder (removeOne cfg) v1 rest) as [v2 os]. cbn [fst snd] in *.
  rewrite tally_cons.
  assert (success (tally os) + failed (tally os) <= length (getExistingNotes cfg v0 rest))
    as Hrest by (apply IH; auto).
  rewrite getExistingNotes_cons_length.
  case_decide as Ho.
  - destruct (getAbstractFileByPath v0 (getNotePath cfg file)) as [[n0|d0]|]; lia.
  - destruct (Hwas Ho) as [n0 ->]. lia.
Qed.

End RemovalBound.

(** X4.  Batch remove attempts at most as many deletions as
    [getExistingNotes] lists for the same files on the same vault, the
    list the confirmation dialog shows: [success + failed] never exceeds
    its length. *)
Theorem removeFileNotes_within_announced {V : Type} `{VaultLaws V}
    (cfg : FileNoteSettings) (v : V) (files : list TFile) :
  success (removeFileNotes cfg v files).2 + failed (removeFileNotes cfg v files).2
  <= length (getExistingNotes cfg v files).
Proof.
  rewrite removeFileNotes_eachInOrder. cbn [snd]. by apply removal_bounded.
Qed.

Lemma removeFileNotes_within_announced_witness :
  let v := vaultOf ["a.mp4"; "a.pdf"; "a.md"; "b.mp4"] [] in
  let files := [fileAt "a.mp4"; fileAt "a.pdf"; fileAt "b.mp4"] in
  length (getExistingNotes DEFAULT_SETTINGS v files) = 2
  /\ success (removeFileNotes DEFAULT_SETTINGS v files).2
     + failed (removeFileNotes DEFAULT_SETTINGS v files).2 <= 2.
Proof.
  cbv zeta. split; [by vm_compute|].
  etransitivity;
    [apply (removeFileNotes_within_announced DEFAULT_SETTINGS
              (vaultOf ["a.mp4"; "a.pdf"; "a.md"; "b.mp4"] [])
              [fileAt "a.mp4"; fileAt "a.pdf"; fileAt "b.mp4"])|].
  by vm_compute.
Defined.

(** ** Single-file operations *)

(** X5.  [createFileNote] and [removeFileNote] leave the vault that the
    batch on the one-element list leaves.  They show no notice exactly
    when notices are switched off and the storage call did not fail: a
    failure is announced in any case. *)
Theorem single_file_is_batch_of_one {V : Type} `{VaultAPI V}
    (cfg : FileNoteSettings) (v : V) (file : TFile) (showNotice : bool) :
  (createFileNote cfg v file showNotice).1 = (createFileNotes cfg v [file]).1
  /\ (removeFileNote cfg v file showNotice).1 = (removeFileNotes cfg v [file]).1
  /\ ((createFileNote cfg v file showNotice).2 = []
      <-> showNotice = false /\ failed (createFileNotes cfg v [file]).2 = 0)
  /\ ((removeFileNote cfg v file showNotice).2 = []
      <-> showNotice = false /\ failed (removeFileNotes cfg v [file]).2 = 0).
Proof.
  unfold createFileNote, createFileNotes, removeFileNote, removeFileNotes.
  cbn [fold_left]. unfold createFileNotes_body, removeFileNotes_body.
  split; [|split; [|split]].
  - destruct (getAbstractFileByPath v (getNotePath cfg file)); [done|].
    by destruct (vaultCreate v _ _).
  - destruct (getAbstractFileByPath v (getNotePath cfg file)) as [[note|d]|]; [|done..].
    by destruct (vaultDelete v note).
  - destruct (getAbstractFileByPath v (getNotePath cfg file));
      [|destruct (vaultCreate v _ _)]; destruct showNotice; simpl;
      (split; [intros ?; try done; by split | by intros [? ?]]).
  - destruct (getAbstractFileByPath v (getNotePath cfg file)) as [[note|d]|];
      [destruct (vaultDelete v note)|..]; destruct showNotice; simpl;
      (split; [intros ?; try done; by split | by intros [? ?]]).
Qed.

(** X6.  A note that [createFileNote] reports as created and
    [removeFileNote] then reports as removed leaves the vault answering at
    every path as it did before the two calls. *)
Theorem create_then_remove_restores {V : Type} `{VaultLaws V}
    (cfg : FileNoteSettings) (v v1 v2 : V) (file : TFile) :
  createFileNote cfg v file true = (v1, [NoticeOf "Created File note"]) ->
  removeFileNote cfg v1 file true = (v2, [NoticeOf "Removed File note"]) ->
  forall q, getAbstractFileByPath v2 q = getAbstractFileByPath v q.
Proof.
  unfold createFileNote, removeFileNote. intros Hcreate Hremove q.
  destruct (getAbstractFileByPath v (getNotePath cfg file)) eqn:Hbefore; [done|].
  destruct (vaultCreate v _ _) as [w|w] eqn:Hc; [|done].
  injection Hcreate as ->.
  destruct (getAbstractFileByPath v1 (getNotePath cfg file)) as [[note|d]|] eqn:Hnote;
    [|done..].
  destruct (vaultDelete v1 note) as [w|w] eqn:Hd; [|done].
  injection Hremove as ->.
  apply lookup_path in Hnote as Hp.
  destruct (decide (q = getNotePath cfg file)) as [->|Hne].
  - rewrite Hbefore, <- Hp. by eapply delete_resolved.
  - pose proof (create_frame v _ (getNoteContent cfg file) q Hne) as Hf1.
    rewrite Hc in Hf1. simpl in Hf1.
    pose proof (delete_frame v1 note q) as Hf2. rewrite Hd, Hp in Hf2. simpl in Hf2.
    by rewrite Hf2, Hf1.
Qed.

Lemma create_then_remove_restores_witness :
  let v := vaultOf ["clip.mp4"] [] in
  let v1 := (createFileNote DEFAULT_SETTINGS v (fileAt "clip.mp4") true).1 in
  let v2 := (removeFileNote DEFAULT_SETTINGS v1 (fileAt "clip.mp4") true).1 in
  getAbstractFileByPath v1 "clip.md" = Some (AFile (fileAt "clip.md"))
  /\ getAbstractFileByPath v2 "clip.md" = None.
Proof.
  cbv zeta. split; [by vm_compute|].
  set (v := vaultOf _ _).
  set (v1 := (createFileNote DEFAULT_SETTINGS v (fileAt "clip.mp4") true).1).
  set (v2 := (removeFileNote DEFAULT_SETTINGS v1 (fileAt "clip.mp4") true).1).
  rewrite (create_then_remove_restores DEFAULT_SETTINGS v v1 v2 (fileAt "clip.mp4")).
  - by vm_compute.
  - by vm_compute.
  - by vm_compute.
Defined.

(** X7.  A source whose path holds no dot is its own note path.  When it
    is in the vault, batch create skips it and leaves the vault as it is;
    batch remove deletes the source itself when the storage lets it. *)
Theorem dotless_source_is_its_own_note {V : Type} `{VaultLaws V}
    (cfg : FileNoteSettings) (v v' : V) (file : TFile) :
  JS.includes "."%char (path file) = false ->
  getAbstractFileByPath v (path file) = Some (AFile file) ->
  vaultDelete v file = Resolved v' ->
  createFileNotes cfg v [file] = (v, {| success := 0; skipped := 1; failed := 0 |})
  /\ removeFileNotes cfg v [file] = (v', {| success := 1; skipped := 0; failed := 0 |})
  /\ getAbstractFileByPath v' (path file) = None.
Proof.
  intros Hdot Hthere Hdel.
  assert (getNotePath cfg file = path file) as Hself.
  { by apply replaceExtension_no_dot. }
  unfold createFileNotes, removeFileNotes. cbn [fold_left].
  unfold createFileNotes_body, removeFileNotes_body.
  rewrite Hself, Hthere, Hdel. repeat split. by eapply delete_resolved.
Qed.

Lemma dotless_source_is_its_own_note_witness :
  let v := vaultOf ["README"; "clip.mp4"] [] in
  (removeFileNotes DEFAULT_SETTINGS v [fileAt "README"]).2
  = {| success := 1; skipped := 0; failed := 0 |}
  /\ getAbstractFileByPath (removeFileNotes DEFAULT_SETTINGS v [fileAt "README"]).1 "README"
     = None.
Proof.
  cbv zeta. set (v := vaultOf _ _).
  destruct (dotless_source_is_its_own_note DEFAULT_SETTINGS v
              (vaultAfter (vaultDelete v (fileAt "README"))) (fileAt "README"))
    as (_ & Hremove & Hgone); [reflexivity | by vm_compute | by vm_compute |].
  rewrite Hremove. by split.
Defined.

(** ** Automatic creation *)

(** X8.  The handler of the vault's [create] event does nothing when
    automatic creation is off, and nothing for a folder or for a file with
    a reserved extension, a note among them: the note it creates does not
    set it off again.  The only notice it ever shows is the one of a
    failed creation. *)
Theorem onVaultCreate_quiet {V : Type} `{VaultAPI V}
    (plugin : FileNotePlugin) (v : V) (file : TAbstractFile) :
  (autoCreate (settings plugin) = false \/ isEligibleFile file = false ->
   (onVaultCreate plugin v file).1 = (v, []))
  /\ (forall notice, notice ∈ (onVaultCreate plugin v file).1.2 ->
                     notice = NoticeOfError "Failed to create file note: ").
Proof.
  unfold onVaultCreate. split.
  - intros [Hoff|Hnot].
    + by rewrite Hoff.
    + destruct (autoCreate (settings plugin)); [|done].
      unfold shouldCreateNoteFor. destruct file as [f|d]; [|done].
      by rewrite Hnot.
  - intros notice. destruct (autoCreate (settings plugin)); [|by intros ?%not_elem_of_nil].
    destruct (shouldCreateNoteFor plugin file) as [wanted plugin1].
    destruct wanted, file as [f|d]; try by intros ?%not_elem_of_nil.
    unfold createFileNote.
    destruct (getAbstractFileByPath v _); [by intros ?%not_elem_of_nil|].
    destruct (vaultCreate v _ _); simpl; [by intros ?%not_elem_of_nil|].
    by intros ->%list_elem_of_singleton.
Qed.

Lemma onVaultCreate_quiet_witness :
  let plugin := onload {| fileExtensions := "mp4"; autoCreate := true;
                          excludedFiles := []; excludedFolders := [];
                          hideFilesWithNotes := false; noteTemplate := "![[{{filename}}]]";
                          notesFolder := ""; addSourceFrontmatter := false |} in
  let v := vaultOf ["clip.mp4"] [] in
  let v1 := (onVaultCreate plugin v (AFile (fileAt "clip.mp4"))).1.1 in
  getAbstractFileByPath v1 "clip.md" = Some (AFile (fileAt "clip.md"))
  /\ (onVaultCreate plugin v1 (AFile (fileAt "clip.md"))).1 = (v1, []).
Proof.
  cbv zeta. split; [by vm_compute|].
  set (plugin := onload _). set (v1 := (onVaultCreate plugin _ _).1.1).
  apply (onVaultCreate_quiet plugin v1 (AFile (fileAt "clip.md"))).
  right. by vm_compute.
Defined.

(** ** Selection for the bulk commands *)

Section Selection.

Lemma sameConfiguration_refl plugin : cacheValid plugin -> sameConfiguration plugin plugin.
Proof. by repeat split. Qed.

Lemma sameConfiguration_trans p1 p2 p3 :
  sameConfiguration p1 p2 -> sameConfiguration p2 p3 -> sameConfiguration p1 p3.
Proof.
  intros (? & ? & ? & ?) (? & ? & ? & ?). repeat split; congruence.
Qed.

Lemma sameConfiguration_answer plugin plugin' file :
  cacheValid plugin -> sameConfiguration plugin plugin' ->
  (shouldCreateNoteFor plugin' file).1 = (shouldCreateNoteFor plugin file).1.
Proof.
  intros Hvalid (Hs & Hfiles & _ & Hvalid'). destruct file as [f|d]; [|done].
  rewrite !shouldCreateNoteFor_guards, !getExtensions_result by done.
  unfold isInExcludedFolder. by rewrite Hs, Hfiles.
Qed.

Lemma shouldCreateNoteFor_plugin plugin file :
  cacheValid plugin -> sameConfiguration plugin (shouldCreateNoteFor plugin file).2.
Proof.
  intros Hvalid. destruct (getExtensions_plugin plugin) as (Hs & Hf & Hd & Hc).
  unfold shouldCreateNoteFor. destruct file as [f|d]; [|by apply sameConfiguration_refl].
  destruct (negb (isEligibleFile (AFile f))); [by apply sameConfiguration_refl|].
  destruct (getExtensions plugin) as [extensions plugin1]. simpl in *.
  assert (sameConfiguration plugin plugin1) by (repeat split; auto).
  repeat (match goal with |- context [if ?b then _ else _] => destruct b end); done.
Qed.

Lemma filterShouldCreate_filter plugin files :
  cacheValid plugin ->
  (filterShouldCreate plugin files).1 = filter (selected plugin) files
  /\ sameConfiguration plugin (filterShouldCreate plugin files).2.
Proof.
  revert plugin. induction files as [|f rest IH]; intros plugin Hvalid.
  - split; [done | by apply sameConfiguration_refl].
  - cbn [filterShouldCreate].
    pose proof (shouldCreateNoteFor_plugin plugin (AFile f) Hvalid) as Hsame.
    destruct (shouldCreateNoteFor plugin (AFile f)) as [keep plugin1] eqn:Hf.
    cbn [snd] in Hsame. pose proof Hsame as (_ & _ & _ & Hvalid1).
    destruct (IH plugin1 Hvalid1) as [Hrest Hsame2].
    destruct (filterShouldCreate plugin1 rest) as [kept plugin2]. cbn [fst snd] in *.
    split; [|by eapply sameConfiguration_trans].
    assert (filter (selected plugin1) rest = filter (selected plugin) rest) as Heq.
    { apply list_filter_iff. intros g. unfold selected.
      by rewrite (sameConfiguration_answer plugin plugin1). }
    rewrite filter_cons, Hrest, Heq.
    case_decide as Hsel; unfold selected in Hsel; rewrite Hf in Hsel; cbn [fst] in Hsel;
      by destruct keep.
Qed.

Lemma filterShouldCreateIn_filter folder plugin files :
  cacheValid plugin ->
  (filterShouldCreateIn folder plugin files).1
  = filter (fun f => JS.startsWith (path f) (folderPath folder +:+ "/") = true)
           (filter (selected plugin) files)
  /\ sameConfiguration plugin (filterShouldCreateIn folder plugin files).2.
Proof.
  revert plugin. induction files as [|f rest IH]; intros plugin Hvalid.
  - split; [done | by apply sameConfiguration_refl].
  - cbn [filterShouldCreateIn]. rewrite filter_cons.
    destruct (JS.startsWith (path f) (folderPath folder +:+ "/")) eqn:Hin.
    + pose proof (shouldCreateNoteFor_plugin plugin (AFile f) Hvalid) as Hsame.
      destruct (shouldCreateNoteFor plugin (AFile f)) as [keep plugin1] eqn:Hf.
      cbn [snd] in Hsame. pose proof Hsame as (_ & _ & _ & Hvalid1).
      destruct (IH plugin1 Hvalid1) as [Hrest Hsame2].
      destruct (filterShouldCreateIn folder plugin1 rest) as [kept plugin2].
      cbn [fst snd] in *.
      split; [|by eapply sameConfiguration_trans].
      assert (filter (selected plugin1) rest = filter (selected plugin) rest) as Heq.
      { apply list_filter_iff. intros g. unfold selected.
        by rewrite (sameConfiguration_answer plugin plugin1). }
      rewrite Hrest, Heq.
      case_decide as Hsel; unfold selected in Hsel; rewrite Hf in Hsel; cbn [fst] in Hsel;
        destruct keep; try done.
      rewrite filter_cons. by rewrite decide_True.
    + destruct (IH plugin Hvalid) as [Hrest Hsame]. split; [|done].
      rewrite Hrest. case_decide; [|done].
      rewrite filter_cons. by rewrite decide_False by (by rewrite Hin).
Qed.

Lemma parseExtensions_size raw :
  size (parseExtensions raw) = 0
  <-> forall piece, piece ∈ JS.split ","%char raw ->
                    JS.toLowerCase (JS.trim piece) = ""
                    \/ JS.toLowerCase (JS.trim piece) = "md".
Proof.
  rewrite size_empty_iff. split.
  - intros Hempty piece Hin.
    destruct (decide (JS.toLowerCase (JS.trim piece) = "")) as [|Hne]; [by left|].
    destruct (decide (JS.toLowerCase (JS.trim piece) = "md")) as [|Hmd]; [by right|].
    exfalso. apply (not_elem_of_empty (C := gset string) (JS.toLowerCase (JS.trim piece))).
    rewrite <- Hempty. apply parseExtensions_elem. eauto.
  - intros Hall ext. split; [|by intros ?%not_elem_of_empty].
    rewrite parseExtensions_elem. intros (Hne & Hmd & piece & Hin & ->).
    by destruct (Hall piece Hin).
Qed.

End Selection.

(** X9.  With the cache in step with the settings: [createAllFileNotes]
    stops before touching the vault exactly when every piece of the
    extensions setting is blank or [md]; otherwise it is batch create on
    the files of the vault that [shouldCreateNoteFor] accepts, in the
    order of the vault.  Filling the cache on the way changes no answer
    and no setting. *)
Theorem createAllFileNotes_runs_on_selection {V : Type} `{VaultAPI V}
    (plugin : FileNotePlugin) (v : V) :
  cacheValid plugin ->
  let blank := forall piece, piece ∈ JS.split ","%char (fileExtensions (settings plugin)) ->
                             JS.toLowerCase (JS.trim piece) = ""
                             \/ JS.toLowerCase (JS.trim piece) = "md" in
  let batch := createFileNotes (settings plugin) v (filter (selected plugin) (getFiles v)) in
  (blank -> (createAllFileNotes plugin v).1 = (v, None))
  /\ (~ blank -> (createAllFileNotes plugin v).1 = (batch.1, Some batch.2))
  /\ sameConfiguration plugin (createAllFileNotes plugin v).2.
Proof.
  intros Hvalid. cbv zeta. unfold createAllFileNotes.
  pose proof (getExtensions_result plugin Hvalid) as Hext.
  destruct (getExtensions_plugin plugin) as (Hs & Hf & Hd & Hc).
  destruct (getExtensions plugin) as [extensions plugin1]. cbn [fst snd] in *.
  assert (sameConfiguration plugin plugin1) as Hsame1 by (repeat split; auto).
  subst extensions. rewrite <- parseExtensions_size.
  destruct (Nat.eqb (size _) 0) eqn:Hsize.
  - apply Nat.eqb_eq in Hsize. split; [done|]. split; [by intros Hne|done].
  - apply Nat.eqb_neq in Hsize.
    destruct (filterShouldCreate_filter plugin1 (getFiles v) (Hc Hvalid)) as [Hfiles Hsame2].
    destruct (filterShouldCreate plugin1 (getFiles v)) as [files plugin2].
    cbn [fst snd] in *.
    assert (settings plugin2 = settings plugin) as Hs2.
    { destruct Hsame2 as (-> & _). done. }
    assert (files = filter (selected plugin) (getFiles v)) as ->.
    { rewrite Hfiles. apply list_filter_iff. intros g. unfold selected.
      by rewrite (sameConfiguration_answer plugin plugin1). }
    rewrite Hs2.
    destruct (createFileNotes (settings plugin) v _) as [v' result].
    split; [by intros Hz|]. split; [done|]. by eapply sameConfiguration_trans.
Qed.

Lemma createAllFileNotes_runs_on_selection_witness :
  let plugin := onload {| fileExtensions := " , MD,"; autoCreate := false;
                          excludedFiles := []; excludedFolders := [];
                          hideFilesWithNotes := false; noteTemplate := "![[{{filename}}]]";
                          notesFolder := ""; addSourceFrontmatter := false |} in
  let v := vaultOf ["clip.mp4"; "memo.MD"] [] in
  (createAllFileNotes plugin v).1 = (v, None).
Proof.
  cbv zeta. set (plugin := onload _). set (v := vaultOf _ _).
  destruct (createAllFileNotes_runs_on_selection plugin v I) as (Hblank & _ & _).
  apply Hblank. intros piece Hin. apply list_elem_of_In in Hin.
  vm_compute in Hin. destruct Hin as [<-|[<-|[<-|[]]]]; vm_compute; auto.
Defined.

(** X10.  The per-folder commands work on the vault-wide selection cut
    down to the files whose path starts with the folder's path and a
    slash: for removal by definition of the two filters, for creation also
    through the cache. *)
Theorem folder_commands_restrict_selection {V : Type} `{VaultAPI V}
    (plugin : FileNotePlugin) (folder : TFolder) (v : V) :
  cacheValid plugin ->
  size (parseExtensions (fileExtensions (settings plugin))) <> 0 ->
  let inFolder f := JS.startsWith (path f) (folderPath folder +:+ "/") = true in
  let batch := createFileNotes (settings plugin) v
                 (filter inFolder (filter (selected plugin) (getFiles v))) in
  (createFileNotesInFolder plugin folder v).1 = (batch.1, Some batch.2)
  /\ removeFileNotesInFolder_files plugin folder v
     = filter inFolder (removeAllFileNotes_files plugin v).
Proof.
  intros Hvalid Hsize. cbv zeta. split.
  - unfold createFileNotesInFolder.
    pose proof (getExtensions_result plugin Hvalid) as Hext.
    destruct (getExtensions_plugin plugin) as (Hs & Hf & Hd & Hc).
    destruct (getExtensions plugin) as [extensions plugin1]. cbn [fst snd] in *.
    assert (sameConfiguration plugin plugin1) as Hsame1 by (repeat split; auto).
    subst extensions. apply Nat.eqb_neq in Hsize. rewrite Hsize.
    destruct (filterShouldCreateIn_filter folder plugin1 (getFiles v) (Hc Hvalid))
      as [Hfiles Hsame2].
    destruct (filterShouldCreateIn folder plugin1 (getFiles v)) as [files plugin2].
    cbn [fst snd] in *.
    assert (settings plugin2 = settings plugin) as Hs2.
    { destruct Hsame2 as (-> & _). done. }
    assert (filter (selected plugin1) (getFiles v) = filter (selected plugin) (getFiles v))
      as Hsel.
    { apply list_filter_iff. intros g. unfold selected.
      by rewrite (sameConfiguration_answer plugin plugin1). }
    rewrite Hs2, Hfiles, Hsel.
    by destruct (createFileNotes (settings plugin) v _).
  - unfold removeFileNotesInFolder_files, removeAllFileNotes_files.
    rewrite list_filter_filter. apply list_filter_iff. intros f.
    by rewrite andb_true_iff.
Qed.

Lemma folder_commands_restrict_selection_witness :
  let plugin := onload {| fileExtensions := "mp4"; autoCreate := false;
                          excludedFiles := []; excludedFolders := [];
                          hideFilesWithNotes := false; noteTemplate := "![[{{filename}}]]";
                          notesFolder := ""; addSourceFrontmatter := false |} in
  let v := vaultOf ["A/x.mp4"; "AB/y.mp4"; "z.mp4"] [] in
  let folder := {| folderPath := "A"; folderName := "A" |} in
  (createFileNotesInFolder plugin folder v).1.2
  = Some {| success := 1; skipped := 0; failed := 0 |}.
Proof.
  cbv zeta. set (plugin := onload _). set (v := vaultOf _ _).
  destruct (folder_commands_restrict_selection plugin {| folderPath := "A"; folderName := "A" |} v I)
    as [-> _]; [by vm_compute|]. by vm_compute.
Defined.

(** ** The extension cache *)

(** X11.  [getExtensions] answers from its cache: a second call returns
    the same set and leaves the plugin as the first call left it, and a
    filled cache goes on answering when the setting is written without a
    save.  After [saveSettings] the answer is that of the current setting,
    whatever the cache held. *)
Theorem getExtensions_cache (plugin : FileNotePlugin) :
  getExtensions (getExtensions plugin).2 = getExtensions plugin
  /\ (forall cached raw,
        cachedExtensions plugin = Some cached ->
        (getExtensions (withSettings (withFileExtensions raw (settings plugin)) plugin)).1
        = cached)
  /\ (forall raw,
        (getExtensions (saveSettings
                          (withSettings (withFileExtensions raw (settings plugin)) plugin))).1
        = parseExtensions raw).
Proof.
  split; [|split].
  - unfold getExtensions. by destruct (cachedExtensions plugin) eqn:Hc; simpl; rewrite ?Hc.
  - intros cached raw Hc. unfold getExtensions. simpl. by rewrite Hc.
  - done.
Qed.

Lemma getExtensions_cache_witness :
  let plugin := (getExtensions (onload DEFAULT_SETTINGS)).2 in
  elements (getExtensions
              (withSettings (withFileExtensions "pdf" (settings plugin)) plugin)).1 = ["mp4"].
Proof.
  cbv zeta. set (plugin := (getExtensions (onload DEFAULT_SETTINGS)).2).
  destruct (getExtensions_cache plugin) as (_ & Hstale & _).
  rewrite (Hstale (parseExtensions "mp4") "pdf"); [by vm_compute | reflexivity].
Defined.

(** ** Reading the extensions setting *)

Section ParseRoundTrip.







End ParseRoundTrip.



(** ** Exclusion from the context menu *)


(** ** The state of the plugin over time *)

Section PluginInvariant.

Lemma toggleFileExclusion_folders plugin file exclude :
  excludedFolders (settings (toggleFileExclusion plugin file exclude))
  = excludedFolders (settings plugin).
Proof.
  unfold toggleFileExclusion. destruct exclude; [|done]. by case_bool_decide.
Qed.

Lemma toggleFolderExclusion_files plugin folder exclude :
  excludedFiles (settings (toggleFolderExclusion plugin folder exclude))
  = excludedFiles (settings plugin).
Proof.
  unfold toggleFolderExclusion. destruct exclude; [|done]. by case_bool_decide.
Qed.



End PluginInvariant.


(** ** Exclusion and eligibility *)

Section ExclusionEffect.
Variable plugin : FileNotePlugin.
Hypothesis Hvalid : cacheValid plugin.
Hypothesis Hsets : setsRebuilt plugin.

Lemma toggleFileExclusion_extensions file exclude :
  fileExtensions (settings (toggleFileExclusion plugin file exclude))
  = fileExtensions (settings plugin).
Proof.
  unfold toggleFileExclusion. destruct exclude; [|done]. by case_bool_decide.
Qed.

Lemma toggleFolderExclusion_extensions folder exclude :
  fileExtensions (settings (toggleFolderExclusion plugin folder exclude))
  = fileExtensions (settings plugin).
Proof.
  unfold toggleFolderExclusion. destruct exclude; [|done]. by case_bool_decide.
Qed.

Lemma answer_after_file_toggle file exclude g :
  (shouldCreateNoteFor (toggleFileExclusion plugin file exclude) (AFile g)).1
  = isEligibleFile (AFile g)
    && bool_decide (JS.toLowerCase (extension g)
                      ∈ parseExtensions (fileExtensions (settings plugin)))
    && negb (bool_decide (path g ∈ excludedFiles
                                     (settings (toggleFileExclusion plugin file exclude))))
    && negb (isInExcludedFolder plugin (path g)).
Proof.
  destruct (toggleFileExclusion_rebuilt plugin file exclude) as [[Hf _] Hc].
  rewrite shouldCreateNoteFor_guards, getExtensions_result by done.
  rewrite toggleFileExclusion_extensions, Hf.
  unfold isInExcludedFolder. rewrite toggleFileExclusion_folders.
  do 3 f_equal. apply bool_decide_ext. by rewrite elem_of_list_to_set.
Qed.

Lemma answer_after_folder_toggle folder exclude g :
  (shouldCreateNoteFor (toggleFolderExclusion plugin folder exclude) (AFile g)).1
  = isEligibleFile (AFile g)
    && bool_decide (JS.toLowerCase (extension g)
                      ∈ parseExtensions (fileExtensions (settings plugin)))
    && negb (bool_decide (path g ∈ excludedFiles (settings plugin)))
    && negb (isInExcludedFolder (toggleFolderExclusion plugin folder exclude) (path g)).
Proof.
  destruct (toggleFolderExclusion_rebuilt plugin folder exclude) as [[Hf _] Hc].
  rewrite shouldCreateNoteFor_guards, getExtensions_result by done.
  rewrite toggleFolderExclusion_extensions, Hf, toggleFolderExclusion_files.
  do 3 f_equal. apply bool_decide_ext. by rewrite elem_of_list_to_set.
Qed.

Lemma answer_before g :
  (shouldCreateNoteFor plugin (AFile g)).1
  = isEligibleFile (AFile g)
    && bool_decide (JS.toLowerCase (extension g)
                      ∈ parseExtensions (fileExtensions (settings plugin)))
    && negb (bool_decide (path g ∈ excludedFiles (settings plugin)))
    && negb (isInExcludedFolder plugin (path g)).
Proof.
  destruct Hsets as [Hf _].
  rewrite shouldCreateNoteFor_guards, getExtensions_result by done.
  do 3 f_equal. apply bool_decide_ext. by rewrite Hf, elem_of_list_to_set.
Qed.

End ExclusionEffect.

(** X15.  With the cache and the sets in step with the settings:
    excluding a file makes [shouldCreateNoteFor] refuse it, and excluding
    a folder makes it refuse every file below the folder; a file toggle
    changes the answer for no file at another path, and a folder toggle
    for no file outside the folder. *)
Theorem exclusion_changes_selection (plugin : FileNotePlugin)
    (file : TFile) (folder : TFolder) (exclude : bool) (g : TFile) :
  cacheValid plugin -> setsRebuilt plugin ->
  (path g = path file ->
   (shouldCreateNoteFor (toggleFileExclusion plugin file true) (AFile g)).1 = false)
  /\ (path g <> path file ->
      (shouldCreateNoteFor (toggleFileExclusion plugin file exclude) (AFile g)).1
      = (shouldCreateNoteFor plugin (AFile g)).1)
  /\ (JS.startsWith (path g) (folderPath folder +:+ "/") = true ->
      (shouldCreateNoteFor (toggleFolderExclusion plugin folder true) (AFile g)).1 = false)
  /\ (JS.startsWith (path g) (folderPath folder +:+ "/") = false ->
      (shouldCreateNoteFor (toggleFolderExclusion plugin folder exclude) (AFile g)).1
      = (shouldCreateNoteFor plugin (AFile g)).1).
Proof.
  intros Hvalid Hsets. split; [|split; [|split]].
  - intros Hsame. rewrite answer_after_file_toggle by done.
    assert (path g ∈ excludedFiles (settings (toggleFileExclusion plugin file true))) as Hin.
    { rewrite toggleFileExclusion_list by done. rewrite Hsame. case_decide; [done|].
      rewrite elem_of_app, list_elem_of_singleton. by right. }
    rewrite (bool_decide_eq_true_2 _ Hin). cbn [negb]. by rewrite andb_false_r.
  - intros Hother. rewrite answer_after_file_toggle, answer_before by done.
    do 2 f_equal. f_equal. apply bool_decide_ext.
    rewrite toggleFileExclusion_list by done.
    destruct exclude; [case_decide; [done|]|].
    + rewrite elem_of_app, list_elem_of_singleton. tauto.
    + rewrite list_elem_of_filter. tauto.
  - intros Hin. rewrite answer_after_folder_toggle by done.
    assert (isInExcludedFolder (toggleFolderExclusion plugin folder true) (path g) = true)
      as ->; [|cbn [negb]; by rewrite andb_false_r].
    apply isInExcludedFolder_iff. exists (folderPath folder). split; [|done].
    rewrite toggleFolderExclusion_list by done. case_decide; [done|].
    rewrite elem_of_app, list_elem_of_singleton. by right.
  - intros Hout. rewrite answer_after_folder_toggle, answer_before by done.
    f_equal. f_equal. apply eq_true_iff_eq. rewrite !isInExcludedFolder_iff.
    rewrite toggleFolderExclusion_list by done.
    split; intros (d & Hd & Hpre); exists d; (split; [|done]).
    + destruct exclude; [case_decide; [done|]|].
      * apply elem_of_app in Hd as [Hd|Hd%list_elem_of_singleton]; [done|].
        subst d. by rewrite Hpre in Hout.
      * by apply list_elem_of_filter in Hd as [_ Hd].
    + destruct exclude; [case_decide; [done|]|].
      * apply elem_of_app. by left.
      * apply list_elem_of_filter. split; [|done]. intros ->. by rewrite Hpre in Hout.
Qed.

Lemma exclusion_changes_selection_witness :
  let plugin := onload DEFAULT_SETTINGS in
  let folder := {| folderPath := "Archive"; folderName := "Archive" |} in
  (shouldCreateNoteFor plugin (AFile (fileAt "Archive/old/clip.mp4"))).1 = true
  /\ (shouldCreateNoteFor (toggleFolderExclusion plugin folder true)
        (AFile (fileAt "Archive/old/clip.mp4"))).1 = false.
Proof.
  cbv zeta. split; [by vm_compute|].
  destruct (exclusion_changes_selection (onload DEFAULT_SETTINGS) (fileAt "x")
              {| folderPath := "Archive"; folderName := "Archive" |} true
              (fileAt "Archive/old/clip.mp4") I) as (_ & _ & Hbelow & _).
  - by split.
  - by apply Hbelow.
Defined.


(** ** More on the Hidden Files Manager *)

Section HiddenFilesMore.
Context {V : Type} `{VaultAPI V}.
Variable cfg : FileNoteSettings.
Variable v : V.

Lemma addClass_idem cls item : addClass cls (addClass cls item) = addClass cls item.
Proof. unfold addClass. simpl. f_equal. by rewrite (assoc_L (∪)), union_idemp_L. Qed.

Lemma removeClass_idem cls item : removeClass cls (removeClass cls item) = removeClass cls item.
Proof.
  unfold removeClass. simpl. f_equal. apply set_eq. intros x.
  rewrite !elem_of_difference. tauto.
Qed.

Lemma visit_idem entry : visit cfg v (visit cfg v entry) = visit cfg v entry.
Proof.
  destruct entry as [p item]. unfold visit. cbn [fst snd].
  destruct (String.eqb p (JS.replaceExtension ".md" p)) eqn:Heq.
  - cbn [fst snd]. by rewrite Heq.
  - destruct (hides cfg v p) eqn:Hh; cbn [fst snd]; rewrite Heq, Hh.
    + by rewrite addClass_idem.
    + by rewrite removeClass_idem.
Qed.

Lemma visited_count (items : list (string * FileItem)) :
  length (filter (fun entry => hides cfg v entry.1 = true) (visit cfg v <$> items))
  = length (filter (fun entry => hides cfg v entry.1 = true) items).
Proof.
  induction items as [|entry items IH]; [done|].
  rewrite fmap_cons, !filter_cons, visit_fst.
  case_decide; simpl; by rewrite IH.
Qed.

Lemma visited_twice (items : list (string * FileItem)) :
  visit cfg v <$> (visit cfg v <$> items) = visit cfg v <$> items.
Proof.
  induction items as [|entry items IH]; [done|].
  by rewrite !fmap_cons, visit_idem, IH.
Qed.

Lemma visit_sameButMark entry : sameButMark entry (visit cfg v entry).
Proof.
  split; [apply visit_fst|]. intros cls Hcls. destruct entry as [p item].
  unfold visit. cbn [fst snd]. destruct (String.eqb _ _); [done|].
  destruct (hides cfg v p); cbn [snd]; unfold addClass, removeClass; simpl.
  - rewrite elem_of_union, elem_of_singleton. split; [by intros [?|?] | by right].
  - rewrite elem_of_difference, elem_of_singleton. split; [by intros [? _] | done].
Qed.

End HiddenFilesMore.

(** X16.  An update pass run again on its own result, with the same
    settings and vault, changes nothing more: bursts of events may be
    folded into one pass. *)
Theorem update_twice {V : Type} `{VaultAPI V}
    (cfg : FileNoteSettings) (v : V) (mgr : HiddenFilesManager) (ws : Workspace) :
  update cfg v (update cfg v mgr ws).1 (update cfg v mgr ws).2 = update cfg v mgr ws.
Proof.
  destruct (negb (hideFilesWithNotes cfg) && negb (hasHiddenFiles mgr)) eqn:Hidle.
  { assert (update cfg v mgr ws = (mgr, ws)) as Hsame.
    { unfold update. by rewrite Hidle. }
    rewrite Hsame. exact Hsame. }
  destruct ws as [[|[[items|]] others]].
  - assert (update cfg v mgr {| fileExplorerLeaves := [] |}
            = (mgr, {| fileExplorerLeaves := [] |})) as Hsame.
    { unfold update. by rewrite Hidle. }
    rewrite Hsame. exact Hsame.
  - rewrite update_pass by done. cbn [fst snd].
    set (n := length (filter _ items)).
    destruct (negb (hideFilesWithNotes cfg) && negb (negb (Nat.eqb n 0))) eqn:Hidle2.
    + unfold update. cbn [hasHiddenFiles]. by rewrite Hidle2.
    + rewrite update_pass by done. by rewrite visited_count, visited_twice.
  - assert (update cfg v mgr {| fileExplorerLeaves := {| fileItems := None |} :: others |}
            = (mgr, {| fileExplorerLeaves := {| fileItems := None |} :: others |})) as Hsame.
    { unfold update. by rewrite Hidle. }
    rewrite Hsame. exact Hsame.
Qed.

(** X17.  An update pass keeps every item of the file explorer in its
    place under its path and changes no class of its element other than
    [file-note-hidden]; further file explorer leaves are not touched. *)
Theorem update_only_marks {V : Type} `{VaultAPI V}
    (cfg : FileNoteSettings) (v : V) (mgr : HiddenFilesManager) (ws : Workspace) :
  Forall2 sameButMark (explorerItems ws) (explorerItems (update cfg v mgr ws).2)
  /\ tail (fileExplorerLeaves (update cfg v mgr ws).2) = tail (fileExplorerLeaves ws).
Proof.
  assert (forall l : list (string * FileItem), Forall2 sameButMark l l) as Hrefl.
  { intros l. apply Forall_Forall2_diag, Forall_forall. by intros entry _. }
  destruct (negb (hideFilesWithNotes cfg) && negb (hasHiddenFiles mgr)) eqn:Hidle.
  { unfold update. rewrite Hidle. cbn [snd]. by split. }
  destruct ws as [[|[[items|]] others]].
  - unfold update. rewrite Hidle. cbn [snd]. by split.
  - rewrite update_pass by done. split; [|done].
    change (Forall2 sameButMark items (visit cfg v <$> items)).
    apply Forall2_fmap_r, Forall_Forall2_diag, Forall_forall.
    intros entry _. apply visit_sameButMark.
  - unfold update. rewrite Hidle. cbn [snd]. by split.
Qed.

(** ** The notes-folder controls *)

Section NotesFolderControls.

Lemma trim_ends s :
  JS.startsWithWhiteSpace (JS.trim s) = false /\ JS.endsWithWhiteSpace (JS.trim s) = false.
Proof. destruct (trim_spec s) as (l & r & _ & _ & _ & ? & ?). by split. Qed.

Lemma notesFolderInput_settings inputValue tab :
  notesFolder (settings (tabPlugin (notesFolderInput inputValue tab))) = JS.trim inputValue
  /\ frontmatterDisabled (notesFolderInput inputValue tab)
     = isCentralFolderMode (JS.trim inputValue)
  /\ addSourceFrontmatter (settings (tabPlugin (notesFolderInput inputValue tab)))
     = isCentralFolderMode (JS.trim inputValue)
       || addSourceFrontmatter (settings (tabPlugin tab)).
Proof.
  unfold notesFolderInput, updateFrontmatterToggle.
  by destruct (isCentralFolderMode (JS.trim inputValue)).
Qed.

Lemma tabStep_keeps tab ev :
  centralNeedsFrontmatter tab
  /\ JS.startsWithWhiteSpace (notesFolder (settings (tabPlugin tab))) = false
  /\ JS.endsWithWhiteSpace (notesFolder (settings (tabPlugin tab))) = false ->
  centralNeedsFrontmatter (tabStep tab ev)
  /\ JS.startsWithWhiteSpace (notesFolder (settings (tabPlugin (tabStep tab ev)))) = false
  /\ JS.endsWithWhiteSpace (notesFolder (settings (tabPlugin (tabStep tab ev)))) = false.
Proof.
  intros ([Hdis Hon] & Hstart & Hend). destruct ev as [inputValue|]; cbn [tabStep].
  - destruct (notesFolderInput_settings inputValue tab) as (Hfolder & Hd & Hfm).
    unfold centralNeedsFrontmatter. rewrite Hfolder, Hd, Hfm.
    destruct (trim_ends inputValue) as [? ?].
    split; [|done]. split; [done|]. by intros ->.
  - unfold frontmatterToggleClick. destruct (frontmatterDisabled tab) eqn:Hd; cbn [fst].
    + split; [|done]. split; [by rewrite Hd | done].
    + unfold centralNeedsFrontmatter. simpl. rewrite <- Hdis.
      split; [|done]. by split.
Qed.

End NotesFolderControls.

(** X18.  Once the notes-folder field has been edited, whatever edits of
    the field and clicks on the source-frontmatter toggle follow: the
    stored folder has no white space at its ends; the toggle is disabled
    exactly in central folder mode (a folder that is not empty and does
    not start with a dot); and in that mode the source frontmatter is
    on. *)
Theorem notes_folder_controls_invariant (tab : SettingTab) (inputValue : string)
    (events : list TabEvent) :
  let after := fold_left tabStep events (notesFolderInput inputValue tab) in
  let folder := notesFolder (settings (tabPlugin after)) in
  JS.startsWithWhiteSpace folder = false
  /\ JS.endsWithWhiteSpace folder = false
  /\ frontmatterDisabled after = isCentralFolderMode folder
  /\ (isCentralFolderMode folder = true ->
      addSourceFrontmatter (settings (tabPlugin after)) = true).
Proof.
  cbv zeta.
  assert (forall t,
            centralNeedsFrontmatter t
            /\ JS.startsWithWhiteSpace (notesFolder (settings (tabPlugin t))) = false
            /\ JS.endsWithWhiteSpace (notesFolder (settings (tabPlugin t))) = false ->
            let t' := fold_left tabStep events t in
            centralNeedsFrontmatter t'
            /\ JS.startsWithWhiteSpace (notesFolder (settings (tabPlugin t'))) = false
            /\ JS.endsWithWhiteSpace (notesFolder (settings (tabPlugin t'))) = false) as Hgen.
  { induction events as [|ev rest IH]; intros t Ht; [done|].
    cbn [fold_left]. apply IH. by apply tabStep_keeps. }
  assert (centralNeedsFrontmatter (notesFolderInput inputValue tab)
          /\ JS.startsWithWhiteSpace
               (notesFolder (settings (tabPlugin (notesFolderInput inputValue tab)))) = false
          /\ JS.endsWithWhiteSpace
               (notesFolder (settings (tabPlugin (notesFolderInput inputValue tab)))) = false)
    as Hfirst.
  { destruct (notesFolderInput_settings inputValue tab) as (Hfolder & Hd & Hfm).
    unfold centralNeedsFrontmatter. rewrite Hfolder, Hd, Hfm.
    destruct (trim_ends inputValue) as [? ?].
    split; [|done]. split; [done|]. by intros ->. }
  destruct (Hgen _ Hfirst) as ([? ?] & ? & ?). auto.
Qed.

Lemma notes_folder_controls_invariant_witness :
  let tab := {| tabPlugin := onload DEFAULT_SETTINGS; frontmatterDisabled := false |} in
  let after := fold_left tabStep [FrontmatterClick; FrontmatterClick]
                 (notesFolderInput "  Notes " tab) in
  notesFolder (settings (tabPlugin after)) = "Notes"
  /\ addSourceFrontmatter (settings (tabPlugin after)) = true.
Proof.
  cbv zeta. split; [by vm_compute|].
  apply (notes_folder_controls_invariant
           {| tabPlugin := onload DEFAULT_SETTINGS; frontmatterDisabled := false |}
           "  Notes " [FrontmatterClick; FrontmatterClick]).
  by vm_compute.
Defined.

(** ** The message of a batch *)

Section BatchMessage.

Lemma lastChar_app s c t : lastChar (s +:+ String c t) = lastChar (String c t).
Proof.
  induction s as [|a s IH]; [done|].
  rewrite app_cons. destruct s as [|b s].
  - by rewrite app_empty_l.
  - rewrite app_cons in *. exact IH.
Qed.

Lemma slice_suffix n s : n <= String.length s -> exists a, s = a +:+ JS.slice n s.
Proof.
  revert s. induction n as [|n IH]; intros s Hn.
  - exists "". by destruct s.
  - destruct s as [|c s]; [simpl in Hn; lia|]. simpl in Hn.
    destruct (IH s) as [a Ha]; [lia|]. exists (String c a).
    rewrite app_cons. simpl. by rewrite <- Ha.
Qed.

Lemma endsWith_inv s p : JS.endsWith s p = true -> exists a, s = a +:+ p.
Proof.
  unfold JS.endsWith. intros [Heq Hlen]%andb_true_iff.
  apply String.eqb_eq in Heq. apply Nat.leb_le in Hlen.
  destruct (slice_suffix (String.length s - String.length p) s) as [a Ha]; [lia|].
  exists a. by rewrite <- Heq.
Qed.

Lemma endsWith_lastChar s p c t :
  p = String c t -> JS.endsWith s p = true -> lastChar s = lastChar p.
Proof.
  intros -> [a ->]%endsWith_inv. apply lastChar_app.
Qed.

End BatchMessage.

(** X19.  The batch message always starts with the action and the number
    of notes processed, and it ends in [ failed] exactly when the failure
    counter is not zero. *)
Theorem formatBatchResultMessage_reports_failures
    (result : BatchOperationResult) (action : string) (includeSkipped : bool) :
  JS.startsWith (formatBatchResultMessage result action includeSkipped)
                (action +:+ " " +:+ numberToString (success result) +:+ " notes") = true
  /\ (JS.endsWith (formatBatchResultMessage result action includeSkipped) " failed" = true
      <-> 0 < failed result).
Proof.
  unfold formatBatchResultMessage. split.
  - destruct includeSkipped, (Nat.ltb 0 (failed result)).
    + rewrite app_assoc'. apply startsWith_app.
    + apply startsWith_app.
    + apply startsWith_app.
    + pose proof (startsWith_app
                    (action +:+ " " +:+ numberToString (success result) +:+ " notes") "")
        as Hrefl.
      by rewrite app_empty_r in Hrefl.
  - destruct (Nat.ltb 0 (failed result)) eqn:Hf.
    + apply Nat.ltb_lt in Hf. split; [done|]. intros _.
      rewrite <- !app_assoc'. apply endsWith_app.
    + apply Nat.ltb_ge in Hf. split; [|lia]. intros Hends. exfalso.
      apply (endsWith_lastChar _ _ " "%char "failed" eq_refl) in Hends.
      destruct includeSkipped.
      * rewrite <- !app_assoc' in Hends.
        change " existing" with (String " "%char "existing") in Hends.
        by rewrite lastChar_app in Hends.
      * rewrite <- !app_assoc' in Hends.
        change " notes" with (String " "%char "notes") in Hends.
        by rewrite lastChar_app in Hends.
Qed.

(** ** The confirmation before a bulk removal *)

(** X20.  A bulk removal deletes only after the user has confirmed: with
    [Cancel], or when no note file exists for the files, the vault is left
    as it is and no batch runs; with [Confirm] and at least one note file
    the outcome is that of [removeFileNotes] on the same files. *)
Theorem removal_needs_confirmation {V : Type} `{VaultAPI V}
    (plugin : FileNotePlugin) (choice : ModalChoice) (v : V) (files : list TFile) :
  (choice = Cancel \/ getExistingNotes (settings plugin) v files = [] ->
   confirmAndRemoveFileNotes plugin choice v files = (v, None))
  /\ (choice = Confirm -> getExistingNotes (settings plugin) v files <> [] ->
      confirmAndRemoveFileNotes plugin choice v files
      = ((removeFileNotes (settings plugin) v files).1,
         Some (removeFileNotes (settings plugin) v files).2))
  /\ removeAllFileNotes plugin Cancel v = (v, None)
  /\ (forall folder, removeFileNotesInFolder plugin folder Cancel v = (v, None)).
Proof.
  unfold removeAllFileNotes, removeFileNotesInFolder, confirmAndRemoveFileNotes.
  split; [|split; [|split]].
  - intros [-> | Hnone]; [by destruct (getExistingNotes _ v files) | by rewrite Hnone].
  - intros -> Hsome. destruct (getExistingNotes _ v files); [done|].
    by destruct (removeFileNotes _ v files).
  - by destruct (getExistingNotes _ v _).
  - intros folder. by destruct (getExistingNotes _ v _).
Qed.

Lemma removal_needs_confirmation_witness :
  let plugin := onload DEFAULT_SETTINGS in
  let v := vaultOf ["clip.mp4"; "clip.md"] [] in
  confirmAndRemoveFileNotes plugin Cancel v [fileAt "clip.mp4"] = (v, None)
  /\ (confirmAndRemoveFileNotes plugin Confirm v [fileAt "clip.mp4"]).2
     = Some {| success := 1; skipped := 0; failed := 0 |}.
Proof.
  cbv zeta. set (plugin := onload _). set (v := vaultOf _ _).
  destruct (removal_needs_confirmation plugin Cancel v [fileAt "clip.mp4"]) as (Hno & _).
  destruct (removal_needs_confirmation plugin Confirm v [fileAt "clip.mp4"]) as (_ & Hyes & _).
  split; [apply Hno; by left|].
  rewrite Hyes; [by vm_compute | done | by vm_compute].
Defined.

(** ** More on note content and note paths *)

Section ContentShape.

Lemma substituteFrom_copy text s rest :
  JS.includes "{"%char s = false ->
  JS.substituteFrom "{{filename}}" text 0 (s +:+ rest)
  = s +:+ JS.substituteFrom "{{filename}}" text 0 rest.
Proof.
  induction s as [|c s IH]; [done|]. intros Hs. simpl in Hs.
  apply orb_false_iff in Hs as [Hc Hs]. rewrite !app_cons.
  cbn [JS.substituteFrom]. cbn [JS.startsWith].
  rewrite Ascii.eqb_sym, Hc. cbn [andb]. by rewrite IH.
Qed.

Lemma substituteFrom_placeholder text rest :
  JS.substituteFrom "{{filename}}" text 0 ("{{filename}}" +:+ rest)
  = text +:+ JS.substituteFrom "{{filename}}" text 0 rest.
Proof. reflexivity. Qed.

Lemma replaceExtension_fixed_or_dotted repl s :
  JS.includes "."%char repl = true ->
  JS.replaceExtension repl s = s \/ JS.includes "."%char (JS.replaceExtension repl s) = true.
Proof.
  intros Hrepl. induction s as [|c s IH]; [by left|]. simpl.
  destruct (JS.isDot c && JS.dotFreeTail s); [by right|].
  destruct IH as [->|IH]; [by left|]. right. simpl. by rewrite IH, orb_true_r.
Qed.

Lemma replaceExtension_idem s :
  JS.replaceExtension ".md" (JS.replaceExtension ".md" s) = JS.replaceExtension ".md" s.
Proof.
  induction s as [|c s IH]; [done|]. simpl.
  destruct (JS.isDot c && JS.dotFreeTail s) eqn:Hmatch; [done|].
  simpl. destruct (replaceExtension_fixed_or_dotted ".md" s eq_refl) as [Hfix|Hdot].
  - by rewrite Hfix, Hmatch, Hfix.
  - assert (JS.dotFreeTail (JS.replaceExtension ".md" s) = false) as ->.
    { destruct (JS.dotFreeTail (JS.replaceExtension ".md" s)) eqn:Ht; [|done].
      apply dotFreeTail_dotFree in Ht. rewrite dotFree_not_includes, Hdot in Ht. done. }
    by rewrite andb_false_r, IH.
Qed.

End ContentShape.

(** X21.  For a display name without a dollar sign and a template made of
    a text, the placeholder and a text, the two texts without an opening
    brace, the note content is the first text, the name and the second
    text; a template without any opening brace is the content as it is,
    whatever the name. *)
Theorem getNoteContent_shape (cfg : FileNoteSettings) (file : TFile) (before after : string) :
  JS.includes "{"%char before = false ->
  JS.includes "{"%char after = false ->
  (JS.includes "$"%char (name file) = false ->
   noteTemplate cfg = before +:+ "{{filename}}" +:+ after ->
   getNoteContent cfg file = before +:+ name file +:+ after)
  /\ (noteTemplate cfg = before -> getNoteContent cfg file = before).
Proof.
  intros Hbefore Hafter. split.
  - intros Hname Htemplate. rewrite getNoteContent_plain_name by done.
    unfold JS.substituteAll. rewrite Htemplate, substituteFrom_copy by done.
    rewrite substituteFrom_placeholder.
    rewrite <- (app_empty_r after) at 1. rewrite substituteFrom_copy by done.
    by rewrite app_empty_r.
  - intros Htemplate. unfold getNoteContent, JS.replaceAll. rewrite Htemplate.
    clear Htemplate.
    assert (forall seen, JS.replaceAllFrom "{{filename}}" (name file) seen 0 before = before)
      as Hcopy; [|apply Hcopy].
    induction before as [|c s IH]; intros seen; [done|].
    simpl in Hbefore. apply orb_false_iff in Hbefore as [Hc Hs].
    cbn [JS.replaceAllFrom]. cbn [JS.startsWith].
    rewrite Ascii.eqb_sym, Hc. cbn [andb]. by rewrite IH.
Qed.

Lemma getNoteContent_shape_witness :
  getNoteContent DEFAULT_SETTINGS (fileAt "clips/video.mp4") = "![[video.mp4]]".
Proof.
  destruct (getNoteContent_shape DEFAULT_SETTINGS (fileAt "clips/video.mp4") "![[" "]]")
    as [Hshape _]; [reflexivity | reflexivity |].
  rewrite Hshape; reflexivity.
Defined.

(** X22.  The note path of a note path is that note path: [getNotePath]
    applied to a file at the path it returned gives the same path again,
    so a note is its own note and no second note is ever derived from
    it. *)
Theorem getNotePath_of_note (cfg : FileNoteSettings) (file note : TFile) :
  path note = getNotePath cfg file ->
  getNotePath cfg note = path note.
Proof.
  unfold getNotePath. intros ->. apply replaceExtension_idem.
Qed.

Lemma getNotePath_of_note_witness :
  getNotePath DEFAULT_SETTINGS (fileAt "clips/video.md") = "clips/video.md".
Proof.
  apply (getNotePath_of_note DEFAULT_SETTINGS (fileAt "clips/video.mp4") (fileAt "clips/video.md")).
  reflexivity.
Defined.

(** X23.  Two sources that differ only in their extension share one note
    path; in a batch create, when the note is missing and the storage
    accepts it, the first of them gets the note and the second is
    skipped. *)
Theorem same_stem_one_note {V : Type} `{VaultLaws V}
    (cfg : FileNoteSettings) (v v' : V) (f1 f2 : TFile) (stem ext1 ext2 : string) :
  path f1 = stem +:+ "." +:+ ext1 -> ext1 <> "" -> JS.dotFree ext1 = true ->
  path f2 = stem +:+ "." +:+ ext2 -> ext2 <> "" -> JS.dotFree ext2 = true ->
  getNotePath cfg f1 = getNotePath cfg f2
  /\ (getAbstractFileByPath v (getNotePath cfg f1) = None ->
      vaultCreate v (getNotePath cfg f1) (getNoteContent cfg f1) = Resolved v' ->
      createFileNotes cfg v [f1; f2]
      = (v', {| success := 1; skipped := 1; failed := 0 |})).
Proof.
  intros Hp1 Hne1 Hd1 Hp2 Hne2 Hd2.
  assert (getNotePath cfg f1 = getNotePath cfg f2) as Hsame.
  { unfold getNotePath. rewrite Hp1, Hp2.
    change (stem +:+ "." +:+ ext1) with (stem +:+ String "."%char ext1).
    change (stem +:+ "." +:+ ext2) with (stem +:+ String "."%char ext2).
    by rewrite !replaceExtension_last_dot. }
  split; [done|]. intros Hmissing Hcreate.
  unfold createFileNotes. cbn [fold_left]. unfold createFileNotes_body.
  rewrite Hmissing, Hcreate, <- Hsame.
  destruct (create_resolved _ _ _ _ Hcreate) as [entry ->]. done.
Qed.

Lemma same_stem_one_note_witness :
  let v := vaultOf ["a.mp4"; "a.pdf"] [] in
  (createFileNotes DEFAULT_SETTINGS v [fileAt "a.mp4"; fileAt "a.pdf"]).2
  = {| success := 1; skipped := 1; failed := 0 |}.
Proof.
  cbv zeta. set (v := vaultOf _ _).
  assert ("mp4" <> "" /\ "pdf" <> "") as [Hmp4 Hpdf] by done.
  pose proof (same_stem_one_note DEFAULT_SETTINGS v
                (vaultAfter (vaultCreate v "a.md" "![[a.mp4]]"))
                (fileAt "a.mp4") (fileAt "a.pdf") "a" "mp4" "pdf"
                eq_refl Hmp4 eq_refl eq_refl Hpdf eq_refl) as [_ Hbatch].
  rewrite Hbatch; [done | by vm_compute | by vm_compute].
Defined.
